(** * solid-graphql-js: SHACL introspection, scalar codecs, directive helper

    A shallow embedding of
    - [packages/introspection/shacl/lib/index.ts]   (module [Shacl]),
    - [packages/directives/linked-data/lib/scalarType/ID.ts] (module [Scalars]),
    - [lib/directives/properties.ts]                (module [Directive]),
    with the properties of the specification stated over it.

    Exceptions are explicit: a function that may [throw] returns a
    [result], and the [Error] type of each module has one constructor per
    [throw] site of the source.  Values obtained from the SPARQL engine
    ([queryObjects]) are inputs of the model; [await] is sequencing. *)

From Stdlib Require Import Ascii String ZArith QArith Lia Lqa.
From stdpp Require Import base option list strings gmap fin_maps.

Local Open Scope string_scope.
Local Open Scope list_scope.
Local Open Scope stdpp_scope.
Local Open Scope Z_scope.

(** ** JavaScript numbers

    A finite IEEE double is a rational; [modifier] only compares its counts
    with the constants 0 and 1, and those comparisons are exact on the
    rational the double denotes.  [-0] and [+0] are one value ([-0 === 0]). *)

Inductive number : Type :=
| NaN
| Finite (q : Q)
| Infinity
| NegInfinity.

Definition Int (z : Z) : number := Finite (inject_Z z).

(** [a < b] on numbers: every comparison with [NaN] is false. *)
Definition num_lt (a b : number) : bool :=
  match a, b with
  | NaN, _ | _, NaN => false
  | NegInfinity, NegInfinity => false
  | NegInfinity, _ => true
  | _, NegInfinity => false
  | Infinity, _ => false
  | Finite _, Infinity => true
  | Finite x, Finite y => negb (Qle_bool y x)
  end.

(** [a === b] on numbers: [NaN] equals nothing, itself included. *)
Definition num_eq (a b : number) : bool :=
  match a, b with
  | Finite x, Finite y => Qeq_bool x y
  | Infinity, Infinity | NegInfinity, NegInfinity => true
  | _, _ => false
  end.

(** ** parseInt(string) with the radix left undefined (ECMAScript 19.2.5)

    Leading white space is skipped, one sign is read, a [0x]/[0X] prefix
    selects radix 16, then the longest prefix of digits is read; no digit
    gives [NaN].  Strings are byte strings, so the white space recognised is
    the ASCII part of [StrWhiteSpaceChar].  The value returned is the
    mathematical integer, except that a magnitude that rounds to an infinite
    double is returned as such; rounding of the integers beyond 2^53 keeps
    them integers above 1 and is left out. *)

Definition isStrWhiteSpaceChar (c : ascii) : bool :=
  let n := Ascii.nat_of_ascii c in
  ((9 <=? n) && (n <=? 13))%nat || (n =? 32)%nat.

Fixpoint trimStart (s : string) : string :=
  match s with
  | String c s' => if isStrWhiteSpaceChar c then trimStart s' else s
  | EmptyString => s
  end.

Definition digitValue (c : ascii) : option Z :=
  let n := Z.of_nat (Ascii.nat_of_ascii c) in
  if (48 <=? n) && (n <=? 57) then Some (n - 48)
  else if (97 <=? n) && (n <=? 122) then Some (n - 87)
  else if (65 <=? n) && (n <=? 90) then Some (n - 55)
  else None.

(** Reads the longest prefix of radix-[R] digits; [None] when it is empty. *)
Fixpoint readDigits (R : Z) (acc : option Z) (s : string) : option Z :=
  match s with
  | String c s' =>
      match digitValue c with
      | Some d =>
          if d <? R then readDigits R (Some (R * default 0 acc + d)) s' else acc
      | None => acc
      end
  | EmptyString => acc
  end.

Definition overflowsDouble (m : Z) : bool := 2 ^ 1024 - 2 ^ 970 <=? m.

Definition parseInt (inputString : string) : number :=
  let str := trimStart inputString in
  let '(sign, str) :=
    match str with
    | String "-" r => (-1, r)
    | String "+" r => (1, r)
    | _ => (1, str)
    end in
  let '(R, str) :=
    match str with
    | String "0" (String "x" r) | String "0" (String "X" r) => (16, r)
    | _ => (10, str)
    end in
  match readDigits R None str with
  | None => NaN
  | Some mathInt =>
      if overflowsDouble mathInt
      then (if sign <? 0 then NegInfinity else Infinity)
      else Int (sign * mathInt)
  end.

(** ** RDF/JS terms ([@rdfjs/types]) *)

Inductive TermType : Type :=
| TNamedNode | TBlankNode | TLiteral | TVariable | TDefaultGraph | TQuad.

#[global] Instance TermType_eq_dec : EqDecision TermType.
Proof. solve_decision. Defined.

(** A literal carries its lexical [value] and its [datatype] term; the
    sources test the kind of the datatype term, so it is a [Term] here.  The
    language tag is never read by the sources. *)
Inductive Term : Type :=
| NamedNode (value : string)
| BlankNode (value : string)
| Literal (value : string) (datatype : Term)
| VariableTerm (value : string)
| DefaultGraph
| Quad.

Definition termType (t : Term) : TermType :=
  match t with
  | NamedNode _ => TNamedNode
  | BlankNode _ => TBlankNode
  | Literal _ _ => TLiteral
  | VariableTerm _ => TVariable
  | DefaultGraph => TDefaultGraph
  | Quad => TQuad
  end.

(** [term.value]; the default graph and a quad have the empty string. *)
Definition value (t : Term) : string :=
  match t with
  | NamedNode v | BlankNode v | Literal v _ | VariableTerm v => v
  | DefaultGraph | Quad => EmptyString
  end.

(** ** Native JavaScript values at the codec boundary

    A [Date] object is its time value (a number, [NaN] for an invalid date)
    and a [URL] object is its serialisation [href]; [JObject] and [JFunction]
    stand for the other objects and functions, told apart by a label. *)
Inductive JsValue : Type :=
| JUndefined
| JNull
| JBoolean (b : bool)
| JNumber (n : number)
| JString (s : string)
| JDate (time : number)
| JURL (href : string)
| JTerm (t : Term)
| JObject (label : string)
| JFunction (label : string).

Definition typeof (v : JsValue) : string :=
  match v with
  | JUndefined => "undefined"
  | JBoolean _ => "boolean"
  | JNumber _ => "number"
  | JString _ => "string"
  | JFunction _ => "function"
  | JNull | JDate _ | JURL _ | JTerm _ | JObject _ => "object"
  end.

Definition instanceof_Date (v : JsValue) : bool :=
  match v with JDate _ => true | _ => false end.

Definition instanceof_URL (v : JsValue) : bool :=
  match v with JURL _ => true | _ => false end.

(** ** Results of functions that may throw *)

Inductive result (E A : Type) : Type :=
| Return (a : A)
| Throw (e : E).
Arguments Return {E A} a.
Arguments Throw {E A} e.

#[global] Instance result_ret {E} : MRet (result E) := fun _ a => Return a.
#[global] Instance result_bind {E} : MBind (result E) := fun _ _ f m =>
  match m with Return a => f a | Throw e => Throw e end.

(** The failure kinds of the specification (sections 4.4 and 7), and
    [GenericError] for what it gives no kind to: an exception raised by the
    engine itself (a [TypeError] of the language) and the "not implemented"
    stub. *)
Inductive FailureKind : Type :=
| ShapeMismatch | DatatypeMismatch | LexicalError | TypeMismatch
| InvalidConstraint
| UnresolvedFieldType | MissingFieldName | MissingShapeName | UnsupportedPath
| ArityError | UnknownKey | TypeError
| GenericError.

#[global] Instance FailureKind_eq_dec : EqDecision FailureKind.
Proof. solve_decision. Defined.

(** * packages/introspection/shacl/lib/index.ts *)

Module Shacl.

(** GraphQL output types as [graphql] builds them: the named scalars of
    [mappings], and the wrappers [GraphQLList] and [GraphQLNonNull]. *)
Inductive GraphQLOutputType : Type :=
| GraphQLString | GraphQLInt | GraphQLBoolean
| GraphQLDate | GraphQLDouble
| GraphQLList (ofType : GraphQLOutputType)
| GraphQLNonNull (ofType : GraphQLOutputType).

#[global] Instance GraphQLOutputType_eq_dec : EqDecision GraphQLOutputType.
Proof. solve_decision. Defined.

(** One constructor per [throw] of [index.ts]; [UndefinedValueRead] is the
    engine's [TypeError] for reading [.value] of [undefined]; the last two
    are what [createObject] and [new GraphQLSchema] may throw. *)
Inductive Error : Type :=
| FieldShouldNotExist
    (* 'Field should not exist for maxCount less than 1' *)
| InvalidSHACLConstraint (minCount maxCount : number)
    (* `Invalid SHACL constraint - received minCount: ... and maxCount: ...` *)
| FieldTypeShouldBeDefined
    (* 'Field type should be defined by now' *)
| PathShouldBeNamedNode
    (* 'Path should be a NameNode' *)
| ExpectedFieldName
    (* 'Expected field name to be defined by this point' *)
| NotImplementedShapeDiscovery
    (* 'Not implemented - shape discovery' *)
| UndefinedValueRead
    (* TypeError: Cannot read properties of undefined (reading 'value') *)
| CreateObjectThrew (message : string)
| GraphQLSchemaThrew (message : string).

(** How the failures of the compiler read in the specification's words. *)
Definition kindOf (e : Error) : FailureKind :=
  match e with
  | FieldShouldNotExist | InvalidSHACLConstraint _ _ => InvalidConstraint
  | FieldTypeShouldBeDefined => UnresolvedFieldType
  | PathShouldBeNamedNode => UnsupportedPath
  | ExpectedFieldName => MissingFieldName
  | NotImplementedShapeDiscovery | UndefinedValueRead
  | CreateObjectThrew _ | GraphQLSchemaThrew _ => GenericError
  end.

(** [function modifier(type, minCount = 0, maxCount = Infinity)]: an
    argument that is [undefined] takes its default. *)
Definition modifier (type : GraphQLOutputType) (minCount maxCount : option number)
  : result Error GraphQLOutputType :=
  let minCount := default (Int 0) minCount in
  let maxCount := default Infinity maxCount in
  if num_lt maxCount (Int 1) then Throw FieldShouldNotExist
  else if num_lt (Int 1) maxCount then
    Return (GraphQLNonNull (GraphQLList (GraphQLNonNull type)))
  else if num_eq minCount (Int 1) then Return (GraphQLNonNull type)
  else if num_eq minCount (Int 0) then Return type
  else Throw (InvalidSHACLConstraint minCount maxCount).

(** *** What [index.ts] takes from elsewhere

    [TYPES]/[TYPE] are the datatype IRI tables of the [rdf-literal] handlers;
    [camelize] is exported by [./utils], whose source is not at hand: both
    are parameters of the compiler. *)
Record HandlerTypes : Type := {
  TypeHandlerString_TYPES : list string;
  TypeHandlerNumberInteger_TYPES : list string;
  TypeHandlerNumberDouble_TYPES : list string;
  TypeHandlerDate_TYPES : list string;
  TypeHandlerBoolean_TYPE : string }.

(** [PropertyInterface] of [./utils], as the object literal of
    [getMeshSource] fills it. *)
Record PropertyInterface : Type := {
  iri : string;
  type : GraphQLOutputType;
  description : option string }.

(** The object [propertyFields], which starts as [{}]: its own properties,
    and the object an assignment made its prototype ([None] while it is
    still [Object.prototype]). *)
Record PropertyFields : Type := {
  own_properties : gmap string PropertyInterface;
  prototype : option PropertyInterface }.

Definition emptyObject : PropertyFields :=
  {| own_properties := ∅; prototype := None |}.

(** [propertyFields[fieldName] = field] on a plain object: the key
    ["__proto__"] reaches the setter that [Object.prototype] defines, which
    makes the object assigned the prototype and adds no own property; every
    other key adds or replaces an own property. *)
Definition assign (fieldName : string) (field : PropertyInterface)
    (propertyFields : PropertyFields) : PropertyFields :=
  if String.eqb fieldName "__proto__"
  then {| own_properties := own_properties propertyFields;
          prototype := Some field |}
  else {| own_properties := <[fieldName := field]> (own_properties propertyFields);
          prototype := prototype propertyFields |}.

(** The argument of [createObject]. *)
Record ObjectConfig : Type := {
  obj_name : string;
  obj_class : option string;
  obj_properties : PropertyFields;
  obj_description : option string }.

(** A call of [createObject] or of [new GraphQLSchema]: what it throws is
    thrown on. *)
Definition outside {A} (thrown : string -> Error) (r : result string A) : result Error A :=
  match r with Return a => Return a | Throw m => Throw (thrown m) end.

(** What the queries on one [sh:property] node returned: [queryObject] for
    [sh:path], [queryObjects] for the others. *)
Record PropertyNode : Type := {
  path : Term;
  datatype : list Term;
  nodeKind : list Term;
  clss : list Term;
  name : list Term;
  maxCount : list Term;
  minCount : list Term;
  propDescription : list Term }.

(** What the queries on one shape returned. *)
Record ShapeNode : Type := {
  targetClass : list Term;
  properties : list PropertyNode;
  shName : list Term;
  shDescription : list Term }.

Section Compiler.

Variable H : HandlerTypes.
Variable camelize : string -> string.

Definition mappings : list (list string * GraphQLOutputType) :=
  [ (TypeHandlerString_TYPES H, GraphQLString);
    (TypeHandlerNumberInteger_TYPES H, GraphQLInt);
    (TypeHandlerNumberDouble_TYPES H, GraphQLDouble);
    (TypeHandlerDate_TYPES H, GraphQLDate);
    ([TypeHandlerBoolean_TYPE H], GraphQLBoolean) ].

(** [for (const [handler, gqlType] of mappings)
       if (handler.TYPES.includes(type.value)) return gqlType] *)
Fixpoint getDatatype_from (ms : list (list string * GraphQLOutputType)) (type : Term)
  : option GraphQLOutputType :=
  match ms with
  | [] => None
  | (TYPES, gqlType) :: ms' =>
      if bool_decide (value type ∈ TYPES) then Some gqlType
      else getDatatype_from ms' type
  end.

Definition getDatatype (type : Term) : option GraphQLOutputType :=
  getDatatype_from mappings type.

Definition getDatatypeSafe (type : Term) : option GraphQLOutputType :=
  if bool_decide (termType type = TNamedNode) then getDatatype type else None.

(** [if (datatype.length === 1) fieldType = getDatatypeSafe(datatype[0])];
    the [nodeKind] and [class] branches are empty in the source. *)
Definition fieldTypeOf (property : PropertyNode) : option GraphQLOutputType :=
  match datatype property with
  | [t] => getDatatypeSafe t
  | _ => None
  end.

(** [if (name.length === 1 && name[0].termType === 'Literal')
       fieldName = camelize(name[0].value)] *)
Definition fieldNameOf (property : PropertyNode) : option string :=
  match name property with
  | [t] => if bool_decide (termType t = TLiteral) then Some (camelize (value t)) else None
  | _ => None
  end.

(** [xs.length > 0 ? parseInt(xs[0].value) : undefined] *)
Definition countOf (xs : list Term) : option number :=
  match xs with
  | t :: _ => Some (parseInt (value t))
  | [] => None
  end.

Definition descriptionOf (xs : list Term) : option string :=
  match xs with
  | [t] => if bool_decide (termType t = TLiteral) then Some (value t) else None
  | _ => None
  end.

(** The body of the loop over [properties], up to the assignment: the field
    name and the entry stored under it.  [!fieldName] holds of [undefined]
    and of the empty string. *)
Definition compileProperty (property : PropertyNode)
  : result Error (string * PropertyInterface) :=
  match fieldTypeOf property with
  | None => Throw FieldTypeShouldBeDefined
  | Some fieldType =>
      fieldType ← modifier fieldType
                    (countOf (minCount property)) (countOf (maxCount property));
      match path property with
      | NamedNode path_value =>
          match fieldNameOf property with
          | None | Some EmptyString => Throw ExpectedFieldName
          | Some fieldName =>
              Return (fieldName,
                      {| iri := path_value;
                         type := fieldType;
                         description := descriptionOf (propDescription property) |})
          end
      | _ => Throw PathShouldBeNamedNode
      end
  end.

(** [for (const property of properties) { ...;
       propertyFields[fieldName] = {...} }] *)
Fixpoint compileProperties (ps : list PropertyNode) (propertyFields : PropertyFields)
  : result Error PropertyFields :=
  match ps with
  | [] => Return propertyFields
  | property :: ps' =>
      '(fieldName, field) ← compileProperty property;
      compileProperties ps' (assign fieldName field propertyFields)
  end.

(** The body of the loop over [this.shapes]: the object handed to
    [createObject].  [shName[0].value] reads a property of [undefined] when
    the shape has no [sh:name]; the two other attributes use [?.]. *)
Definition compileShape (shape : ShapeNode) : result Error ObjectConfig :=
  propertyFields ← compileProperties (properties shape) emptyObject;
  match shName shape with
  | [] => Throw UndefinedValueRead
  | t :: _ =>
      Return {| obj_name := value t;
                obj_class := value <$> head (targetClass shape);
                obj_properties := propertyFields;
                obj_description := value <$> head (shDescription shape) |}
  end.

Section MeshSource.
Context {GraphQLNamedType GraphQLSchema : Type}.
(** [createObject] of [./utils] and the constructor of [GraphQLSchema] are
    not at hand; either may throw. *)
Variable createObject : ObjectConfig -> result string GraphQLNamedType.
Variable newGraphQLSchema : list GraphQLNamedType -> result string GraphQLSchema.

(** [for (const shape of this.shapes) { ...; types.push(createObject({...})) }] *)
Fixpoint compileShapes (shapes : list ShapeNode) (types : list GraphQLNamedType)
  : result Error (list GraphQLNamedType) :=
  match shapes with
  | [] => Return types
  | shape :: shapes' =>
      config ← compileShape shape;
      type ← outside CreateObjectThrew (createObject config);
      compileShapes shapes' (types ++ [type])
  end.

(** [getMeshSource]: the [schema] of the object returned,
    [new GraphQLSchema({ types })]. *)
Definition getMeshSource (shapes : option (list ShapeNode))
  : result Error GraphQLSchema :=
  match shapes with
  | None => Throw NotImplementedShapeDiscovery
  | Some shapes =>
      types ← compileShapes shapes [];
      outside GraphQLSchemaThrew (newGraphQLSchema types)
  end.

End MeshSource.
End Compiler.

End Shacl.

(** * packages/directives/linked-data/lib/scalarType/ID.ts

    Each exported function installs a [serialize] (term to native value, the
    specification's decode) and a [parseValue] (native value to term, its
    encode) on the scalar named [scalarName]; the two closures are the
    definitions below. *)

Module Scalars.

(** One constructor per [throw] of [ID.ts] (the messages are shared between
    the codecs as the source shares them), one for an exception raised
    inside each method of an [rdf-literal] handler, one for the [TypeError]
    of [new URL]. *)
Inductive Error : Type :=
| ExpectedLiteralTerm (received : Term)
    (* `Expected Literal term, instead received ... of type ...` *)
| ExpectedDatatypeNamedNode (datatype : Term)
    (* `Expected datatype to be a NamedNode, instead received ...` *)
| ExpectedStringType (received : string)
    (* `Expected a string type, instead received ...` *)
| ExpectedAnyURIType (received : string)
    (* `Expected a anyURI type, instead received ...` *)
| ExpectedNodeStringValue (received : JsValue)
    (* `Expected node to have string value, instead received ...` *)
| ExpectedNodeNumberValue (received : JsValue)
    (* `Expected node to have number value, instead received ...` *)
| ExpectedNodeToHaveStringValue
    (* 'Expected node to have string value' *)
| ExpectedString (received : JsValue)
    (* `Expected string, received ... of type ...` *)
| ExpectedURL (received : JsValue)
    (* `Expected URL, received ... of type ...` *)
| ExpectedNamedNode (scalarName : string)
    (* `Expected @... to be a NamedNode` *)
| FromRdfThrew (message : string)
| ToRdfThrew (message : string)
| InvalidURL (input : string).

(** How the failures of the codecs read in the specification's words. *)
Definition kindOf (e : Error) : FailureKind :=
  match e with
  | ExpectedLiteralTerm _ | ExpectedNamedNode _ => ShapeMismatch
  | ExpectedDatatypeNamedNode _ | ExpectedStringType _ | ExpectedAnyURIType _ =>
      DatatypeMismatch
  | ExpectedNodeStringValue _ | ExpectedNodeNumberValue _
  | ExpectedNodeToHaveStringValue | FromRdfThrew _ | InvalidURL _ => LexicalError
  | ExpectedString _ | ExpectedURL _ | ToRdfThrew _ => TypeMismatch
  end.

(** A type handler of [rdf-literal]: its static [TYPES], [fromRdf(literal,
    validate)] and [toRdf(value, { datatype, dataFactory })].  The handlers
    are a dependency, hence parameters; either method may throw. *)
Record TypeHandler : Type := {
  TYPES : list string;
  fromRdf : Term -> bool -> result string JsValue;
  toRdf : JsValue -> option Term -> result string Term }.

(** A call of a handler method: what it throws is thrown on. *)
Definition calling {A} (thrown : string -> Error) (r : result string A) : result Error A :=
  match r with Return a => Return a | Throw m => Throw (thrown m) end.

Definition xsd_string : string := "http://www.w3.org/2001/XMLSchema#string".
Definition anyURI : string := "http://www.w3.org/2001/XMLSchema#anyURI".

Section Codecs.

Variables stringHandler dateHandler intHandler doubleHandler : TypeHandler.
(** [new URL(v)]: the serialisation of the parsed URL, or a [TypeError]. *)
Variable URL_parse : string -> option string.

(** *** string *)

Definition string_serialize (term : Term) : result Error JsValue :=
  match term with
  | Literal _ datatype =>
      if negb (bool_decide (termType datatype = TNamedNode))
      then Throw (ExpectedDatatypeNamedNode datatype)
      else if negb (bool_decide (value datatype ∈ TYPES stringHandler))
      then Throw (ExpectedStringType (value datatype))
      else
        result ← calling FromRdfThrew (fromRdf stringHandler term false);
        if negb (String.eqb (typeof result) "string")
        then Throw (ExpectedNodeStringValue result)
        else Return result
  | _ => Throw (ExpectedLiteralTerm term)
  end.

Definition string_parseValue (v : JsValue) : result Error Term :=
  if negb (String.eqb (typeof v) "string") then Throw (ExpectedString v)
  else calling ToRdfThrew (toRdf stringHandler v (Some (NamedNode xsd_string))).

(** *** date *)

Definition date_serialize (term : Term) : result Error JsValue :=
  match term with
  | Literal _ datatype =>
      if negb (bool_decide (termType datatype = TNamedNode))
      then Throw (ExpectedDatatypeNamedNode datatype)
      else if negb (bool_decide (value datatype ∈ TYPES dateHandler))
      then Throw (ExpectedStringType (value datatype))
      else
        result ← calling FromRdfThrew (fromRdf dateHandler term true);
        if negb (instanceof_Date result)
        then Throw (ExpectedNodeStringValue result)
        else Return result
  | _ => Throw (ExpectedLiteralTerm term)
  end.

Definition date_parseValue (v : JsValue) : result Error Term :=
  if negb (instanceof_Date v) then Throw (ExpectedString v)
  else calling ToRdfThrew (toRdf dateHandler v None).

(** *** int *)

Definition int_serialize (term : Term) : result Error JsValue :=
  match term with
  | Literal _ datatype =>
      if negb (bool_decide (termType datatype = TNamedNode))
      then Throw (ExpectedDatatypeNamedNode datatype)
      else if negb (bool_decide (value datatype ∈ TYPES intHandler))
      then Throw (ExpectedStringType (value datatype))
      else
        result ← calling FromRdfThrew (fromRdf intHandler term true);
        if String.eqb (typeof result) "number"
        then Throw (ExpectedNodeNumberValue result)
        else Return result
  | _ => Throw (ExpectedLiteralTerm term)
  end.

Definition int_parseValue (v : JsValue) : result Error Term :=
  if String.eqb (typeof v) "number" then Throw (ExpectedNodeNumberValue v)
  else calling ToRdfThrew (toRdf intHandler v None).

(** *** float *)

Definition float_serialize (term : Term) : result Error JsValue :=
  match term with
  | Literal _ datatype =>
      if negb (bool_decide (termType datatype = TNamedNode))
      then Throw (ExpectedDatatypeNamedNode datatype)
      else if negb (bool_decide (value datatype ∈ TYPES doubleHandler))
      then Throw (ExpectedStringType (value datatype))
      else
        result ← calling FromRdfThrew (fromRdf doubleHandler term true);
        if String.eqb (typeof result) "number"
        then Throw (ExpectedNodeNumberValue result)
        else Return result
  | _ => Throw (ExpectedLiteralTerm term)
  end.

Definition float_parseValue (v : JsValue) : result Error Term :=
  if String.eqb (typeof v) "number" then Throw (ExpectedNodeNumberValue v)
  else calling ToRdfThrew (toRdf doubleHandler v None).

(** *** url

    [value.value] of a term is a string, so the [typeof v !== 'string']
    guard never fires; it is kept where the source has it. *)

Definition url_serialize (term : Term) : result Error JsValue :=
  match term with
  | Literal _ datatype =>
      if negb (bool_decide (termType datatype = TNamedNode))
      then Throw (ExpectedDatatypeNamedNode datatype)
      else if negb (String.eqb (value datatype) anyURI)
      then Throw (ExpectedAnyURIType (value datatype))
      else
        let v := JString (value term) in
        if negb (String.eqb (typeof v) "string")
        then Throw ExpectedNodeToHaveStringValue
        else match URL_parse (value term) with
             | Some href => Return (JURL href)
             | None => Throw (InvalidURL (value term))
             end
  | _ => Throw (ExpectedLiteralTerm term)
  end.

Definition url_parseValue (v : JsValue) : result Error Term :=
  match v with
  | JURL href => Return (Literal href (NamedNode anyURI))
  | _ => Throw (ExpectedURL v)
  end.

(** *** ID *)

Definition ID_serialize (scalarName : string) (term : Term) : result Error JsValue :=
  if negb (bool_decide (termType term = TNamedNode))
  then Throw (ExpectedNamedNode scalarName)
  else Return (JString (value term)).

Definition ID_parseValue (v : JsValue) : result Error Term :=
  match v with
  | JString s => Return (NamedNode s)
  | _ => Throw (ExpectedString v)
  end.

(** [serialize(parseValue(v))]: encode, then decode. *)
Definition roundtrip (parseValue : JsValue -> result Error Term)
    (serialize : Term -> result Error JsValue) (v : JsValue) : result Error JsValue :=
  term ← parseValue v; serialize term.

End Codecs.

(** The two guards the specification asks of a decode that accepts the
    literals whose datatype IRI is [recognized]: a term that is not a
    literal is a [ShapeMismatch]; a literal of another datatype is a
    [DatatypeMismatch], whatever its lexical value. *)
Definition guards_in_order (recognized : string -> Prop)
    (serialize : Term -> result Error JsValue) : Prop :=
  (forall term, termType term <> TLiteral ->
     exists e, serialize term = Throw e /\ kindOf e = ShapeMismatch)
  /\ (forall v dt, ~ (termType dt = TNamedNode /\ recognized (value dt)) ->
       exists e, serialize (Literal v dt) = Throw e /\ kindOf e = DatatypeMismatch).

(** The discipline the specification asks of a decode: the two guards, and
    then the validity of the value.  [parse] is what the literal reads as,
    or the failure to read it, and [native] tells the values of the family's
    native type: a literal of a recognized datatype decodes to what it reads
    as when that is a native value, and is a [LexicalError] in every other
    case. *)
Definition checks_in_order (recognized : string -> Prop)
    (parse : Term -> result string JsValue) (native : JsValue -> bool)
    (serialize : Term -> result Error JsValue) : Prop :=
  guards_in_order recognized serialize
  /\ (forall v dt, termType dt = TNamedNode -> recognized (value dt) ->
       match parse (Literal v dt) with
       | Return r =>
           if native r then serialize (Literal v dt) = Return r
           else exists e, serialize (Literal v dt) = Throw e /\ kindOf e = LexicalError
       | Throw _ =>
           exists e, serialize (Literal v dt) = Throw e /\ kindOf e = LexicalError
       end).

End Scalars.

(** * lib/directives/properties.ts *)

Module Directive.

(** One constructor per [throw] of [nodeFromDirective], and the engine's
    [TypeError] for calling what is not a function. *)
Inductive Error : Type :=
| RequiresExactlyOneArgument (directiveName : string) (received : nat)
    (* `@... requires exactly one argument, received ...` *)
| AcceptsOnlyStringValues (directiveName : string) (received : string)
    (* `@... accepts only string values, received ...` *)
| ExpectedKeyToBeOneOf (keys : string) (received : string)
    (* `Expected key to be one of ...; received ...` *)
| NotCallable (what : string).

Definition kindOf (e : Error) : FailureKind :=
  match e with
  | RequiresExactlyOneArgument _ _ => ArityError
  | AcceptsOnlyStringValues _ _ => TypeError
  | ExpectedKeyToBeOneOf _ _ => UnknownKey
  | NotCallable _ => GenericError
  end.

(** [const mapping = { iri: DataFactory.namedNode }]: an object literal, so
    an ordinary object whose prototype is [Object.prototype]. *)
Definition mapping_keys : list string := ["iri"].

(** The property names of [Object.prototype] (ECMAScript 20.1.3 and B.2.2). *)
Definition ObjectPrototype_keys : list string :=
  [ "constructor"; "__defineGetter__"; "__defineSetter__"; "hasOwnProperty";
    "__lookupGetter__"; "__lookupSetter__"; "isPrototypeOf";
    "propertyIsEnumerable"; "toString"; "valueOf"; "__proto__";
    "toLocaleString" ].

(** [key in mapping]: the [in] operator looks through the prototype chain. *)
Definition key_in_mapping (key : string) : bool :=
  bool_decide (key ∈ mapping_keys) || bool_decide (key ∈ ObjectPrototype_keys).

(** [Object.keys(mapping).join(', ')]: own enumerable keys only. *)
Definition join_keys (keys : list string) : string :=
  String.concat ", " keys.

(** [mapping[key](value)] for a [key] that is [in mapping] and a string
    [value]: the own member [iri] is [DataFactory.namedNode]; the others are
    the members of [Object.prototype], called with [this = mapping]. *)
Definition call_mapping (key value : string) : result Error JsValue :=
  if String.eqb key "iri" then Return (JTerm (NamedNode value))
  else if String.eqb key "toString" || String.eqb key "toLocaleString"
  then Return (JString "[object Object]")
  else if String.eqb key "valueOf" then Return (JObject "mapping")
  else if String.eqb key "constructor" then Return (JObject "String")
  else if String.eqb key "hasOwnProperty" || String.eqb key "propertyIsEnumerable"
  then Return (JBoolean (String.eqb value "iri"))
  else if String.eqb key "isPrototypeOf" then Return (JBoolean false)
  else if String.eqb key "__lookupGetter__"
  then Return (if String.eqb value "__proto__" then JFunction "get __proto__" else JUndefined)
  else if String.eqb key "__lookupSetter__"
  then Return (if String.eqb value "__proto__" then JFunction "set __proto__" else JUndefined)
  else if String.eqb key "__defineGetter__" || String.eqb key "__defineSetter__"
  then Throw (NotCallable "undefined")
  else Throw (NotCallable ("mapping." ++ key)%string).

(** [directive] is [Object.entries(directive)] when it is an object, and
    [None] when it is [undefined]. *)
Definition nodeFromDirective (directive : option (list (string * JsValue)))
    (directiveName : string) : result Error JsValue :=
  match directive with
  | None => Throw (RequiresExactlyOneArgument directiveName 0)
  | Some entries =>
      match entries with
      | [(key, value)] =>
          match value with
          | JString value =>
              if key_in_mapping key then call_mapping key value
              else Throw (ExpectedKeyToBeOneOf (join_keys mapping_keys) key)
          | _ => Throw (AcceptsOnlyStringValues directiveName (typeof value))
          end
      | _ => Throw (RequiresExactlyOneArgument directiveName (length entries))
      end
  end.

End Directive.

(** * Sample inputs

    Instances of the parameters and small inputs on which the compiler and
    the helper are run below. *)

Module Sample.

Definition xsd (local : string) : string :=
  ("http://www.w3.org/2001/XMLSchema#" ++ local)%string.

(** The datatype IRI tables of [rdf-literal]'s handlers. *)
Definition rdfLiteral : Shacl.HandlerTypes :=
  {| Shacl.TypeHandlerString_TYPES :=
       xsd "string" :: xsd "normalizedString" :: xsd "anyURI" :: xsd "base64Binary"
       :: xsd "language" :: xsd "Name" :: xsd "NCName" :: xsd "NMTOKEN"
       :: xsd "token" :: xsd "hexBinary"
       :: "http://www.w3.org/1999/02/22-rdf-syntax-ns#langString"
       :: xsd "time" :: xsd "duration" :: nil;
     Shacl.TypeHandlerNumberInteger_TYPES :=
       xsd "integer" :: xsd "long" :: xsd "int" :: xsd "byte" :: xsd "short"
       :: xsd "negativeInteger" :: xsd "nonNegativeInteger"
       :: xsd "nonPositiveInteger" :: xsd "positiveInteger"
       :: xsd "unsignedByte" :: xsd "unsignedInt" :: xsd "unsignedLong"
       :: xsd "unsignedShort" :: nil;
     Shacl.TypeHandlerNumberDouble_TYPES :=
       xsd "double" :: xsd "decimal" :: xsd "float" :: nil;
     Shacl.TypeHandlerDate_TYPES :=
       xsd "dateTime" :: xsd "date" :: xsd "gDay" :: xsd "gMonthDay"
       :: xsd "gYear" :: xsd "gYearMonth" :: nil;
     Shacl.TypeHandlerBoolean_TYPE := xsd "boolean" |}.

Definition toLower (c : ascii) : ascii :=
  let n := Ascii.nat_of_ascii c in
  if ((65 <=? n) && (n <=? 90))%nat then Ascii.ascii_of_nat (n + 32) else c.

Definition toUpper (c : ascii) : ascii :=
  let n := Ascii.nat_of_ascii c in
  if ((97 <=? n) && (n <=? 122))%nat then Ascii.ascii_of_nat (n - 32) else c.

Fixpoint camelize_from (upper : bool) (s : string) : string :=
  match s with
  | EmptyString => EmptyString
  | String c r =>
      if Ascii.eqb c " " then camelize_from true r
      else String (if upper then toUpper c else c) (camelize_from false r)
  end.

(** Modelled from the spec: [camelize] of [./utils], whose source is not at
    hand; the specification says only that the name literal is "camel-cased
    to produce the field name".  The words of the name are joined, the first
    starting in lower case and each following one in upper case. *)
Definition camelize (s : string) : string :=
  match camelize_from false s with
  | String c r => String (toLower c) r
  | EmptyString => EmptyString
  end.

Definition lit (v : string) (dt : string) : Term := Literal v (NamedNode (xsd dt)).

(** A property node with the given attributes and no [sh:nodeKind],
    [sh:class] or [sh:description]. *)
Definition prop (path : Term) (datatype name minCount maxCount : list Term)
  : Shacl.PropertyNode :=
  {| Shacl.path := path; Shacl.datatype := datatype; Shacl.nodeKind := [];
     Shacl.clss := []; Shacl.name := name; Shacl.maxCount := maxCount;
     Shacl.minCount := minCount; Shacl.propDescription := [] |}.

Definition ex (local : string) : Term := NamedNode ("http://example.org/" ++ local)%string.

(** [birthDate], an [xsd:date], at most once. *)
Definition birthDate : Shacl.PropertyNode :=
  prop (ex "birthDate") [NamedNode (xsd "date")] [lit "birth date" "string"]
       [lit "0" "integer"] [lit "1" "integer"].

(** The same field name, from another predicate and of another type. *)
Definition birthDate' : Shacl.PropertyNode :=
  prop (ex "born") [NamedNode (xsd "string")] [lit "birthDate" "string"]
       [lit "1" "integer"] [lit "1" "integer"].

(** Neither a datatype nor a name. *)
Definition untyped_unnamed : Shacl.PropertyNode :=
  prop (ex "p") [] [] [] [].

(** A composite path (a blank node) and no name. *)
Definition composite_unnamed : Shacl.PropertyNode :=
  prop (BlankNode "b0") [NamedNode (xsd "string")] [] [] [].

(** A type, and a [sh:name] that is an IRI, not a literal. *)
Definition unnamed : Shacl.PropertyNode :=
  prop (ex "p") [NamedNode (xsd "string")] [NamedNode "http://example.org/n"] [] [].

(** A composite path, with a name. *)
Definition composite : Shacl.PropertyNode :=
  prop (BlankNode "b0") [NamedNode (xsd "string")] [lit "label" "string"] [] [].

(** [sh:minCount "abc"] with [sh:maxCount 5], and with [sh:maxCount 1]. *)
Definition badMin_many : Shacl.PropertyNode :=
  prop (ex "tag") [NamedNode (xsd "string")] [lit "tag" "string"]
       [lit "abc" "integer"] [lit "5" "integer"].

Definition badMin_one : Shacl.PropertyNode :=
  prop (ex "tag") [NamedNode (xsd "string")] [lit "tag" "string"]
       [lit "abc" "integer"] [lit "1" "integer"].

(** [sh:maxCount "abc"]. *)
Definition badMax : Shacl.PropertyNode :=
  prop (ex "tag") [NamedNode (xsd "string")] [lit "tag" "string"]
       [] [lit "abc" "integer"].

(** A handler in the manner of [rdf-literal]'s string handler: the native
    value of a literal is its lexical value, and a string becomes the
    literal of the datatype asked for. *)
Definition stringHandler : Scalars.TypeHandler :=
  {| Scalars.TYPES := Shacl.TypeHandlerString_TYPES rdfLiteral;
     Scalars.fromRdf := fun literal _ => Return (JString (value literal));
     Scalars.toRdf := fun v datatype =>
       match v with
       | JString s => Return (Literal s (default (NamedNode (xsd "string")) datatype))
       | _ => Throw "not a string"
       end |}.

(** A stand-in for [new URL]: absolute [http:] and [https:] addresses are
    accepted and kept as they are written. *)
Definition URL_parse (s : string) : option string :=
  if String.prefix "http://" s || String.prefix "https://" s then Some s else None.

(** A handler in the manner of [rdf-literal]'s integer handler: the native
    value of a literal is the number its lexical value parses to, and a
    validating [fromRdf] throws on a lexical value that is no number. *)
Definition intHandler : Scalars.TypeHandler :=
  {| Scalars.TYPES := Shacl.TypeHandlerNumberInteger_TYPES rdfLiteral;
     Scalars.fromRdf := fun literal validate =>
       match parseInt (value literal) with
       | NaN => if validate then Throw "Invalid RDF integer value" else Return (JNumber NaN)
       | n => Return (JNumber n)
       end;
     Scalars.toRdf := fun v datatype =>
       match v with
       | JString s => Return (Literal s (default (NamedNode (xsd "integer")) datatype))
       | _ => Throw "not a lexical value"
       end |}.

Definition shape (names : list Term) (ps : list Shacl.PropertyNode) : Shacl.ShapeNode :=
  {| Shacl.targetClass := [ex "Person"]; Shacl.properties := ps;
     Shacl.shName := names; Shacl.shDescription := [] |}.

End Sample.

(** * The cardinality resolver: [modifier] *)

Module ShaclProps.
Import Shacl Sample.

Ltac qarith := unfold Int, inject_Z in *; lra.

Lemma num_lt_Finite (x y : Q) : num_lt (Finite x) (Finite y) = true <-> (x < y)%Q.
Proof.
  simpl. rewrite negb_true_iff. split.
  - intros Hle. apply Qnot_le_lt. intros Hyx.
    apply Qle_bool_iff in Hyx. congruence.
  - intros Hlt. destruct (Qle_bool y x) eqn:E; [|reflexivity].
    apply Qle_bool_iff in E. exfalso. apply (Qlt_not_le _ _ Hlt E).
Qed.

Lemma num_lt_Finite_false (x y : Q) : num_lt (Finite x) (Finite y) = false <-> (y <= x)%Q.
Proof.
  simpl. rewrite negb_false_iff. apply Qle_bool_iff.
Qed.

Lemma num_eq_Finite (x y : Q) : num_eq (Finite x) (Finite y) = true <-> (x == y)%Q.
Proof. simpl. apply Qeq_bool_iff. Qed.

Lemma num_eq_Finite_false (x y : Q) : num_eq (Finite x) (Finite y) = false <-> ~ (x == y)%Q.
Proof.
  simpl. split.
  - intros E Heq. apply Qeq_bool_iff in Heq. congruence.
  - intros Hne. destruct (Qeq_bool x y) eqn:E; [|reflexivity].
    apply Qeq_bool_iff in E. contradiction.
Qed.

(** [maxCount] absent, infinite or above 1: the list wrapping, whatever
    [minCount] is. *)
Lemma modifier_many (type : GraphQLOutputType) (min max : option number) :
  max = None \/ max = Some Infinity \/ (exists b, max = Some (Finite b) /\ (1 < b)%Q) ->
  modifier type min max = Return (GraphQLNonNull (GraphQLList (GraphQLNonNull type))).
Proof.
  intros [-> | [-> | (b & -> & Hb)]]; unfold modifier; simpl default; try reflexivity.
  assert (H1 : num_lt (Finite b) (Int 1) = false).
  { apply num_lt_Finite_false. qarith. }
  assert (H2 : num_lt (Int 1) (Finite b) = true).
  { apply num_lt_Finite. qarith. }
  rewrite H1, H2. reflexivity.
Qed.

(** [maxCount] below 1: the first [throw], whatever [minCount] is. *)
Lemma modifier_none (type : GraphQLOutputType) (min max : option number) :
  max = Some NegInfinity \/ (exists b, max = Some (Finite b) /\ (b < 1)%Q) ->
  modifier type min max = Throw FieldShouldNotExist.
Proof.
  intros [-> | (b & -> & Hb)]; unfold modifier; simpl default; try reflexivity.
  assert (H1 : num_lt (Finite b) (Int 1) = true).
  { apply num_lt_Finite. qarith. }
  rewrite H1. reflexivity.
Qed.

(** [maxCount] equal to 1: the result is decided by [minCount]. *)
Lemma modifier_one (type : GraphQLOutputType) (min : option number) (b : Q) :
  (b == 1)%Q ->
  modifier type min (Some (Finite b)) =
    if num_eq (default (Int 0) min) (Int 1) then Return (GraphQLNonNull type)
    else if num_eq (default (Int 0) min) (Int 0) then Return type
    else Throw (InvalidSHACLConstraint (default (Int 0) min) (Finite b)).
Proof.
  intros Hb. unfold modifier; simpl default.
  assert (H1 : num_lt (Finite b) (Int 1) = false).
  { apply num_lt_Finite_false. qarith. }
  assert (H2 : num_lt (Int 1) (Finite b) = false).
  { apply num_lt_Finite_false. qarith. }
  rewrite H1, H2. reflexivity.
Qed.

(** Every failure of [modifier] is an [InvalidConstraint]. *)
Lemma modifier_Throw_kind (type : GraphQLOutputType) (min max : option number) (e : Error) :
  modifier type min max = Throw e -> kindOf e = InvalidConstraint.
Proof.
  unfold modifier.
  repeat match goal with |- context [if ?c then _ else _] => destruct c end;
    intros [= <-]; reflexivity.
Qed.

(** C2. [modifier], applied to a base type and the two counts, returns the
    required (non-null) base type when both counts are 1; the base type
    itself (optional) when [maxCount] is 1 and [minCount] is 0 or absent; the
    required list of required base type whenever [maxCount] is absent or
    above 1; and fails with [InvalidConstraint] when [maxCount] is below 1,
    and when [maxCount] is 1 and [minCount] is anything but 0 and 1. *)
Theorem modifier_cardinality (type : GraphQLOutputType) :
  (forall a b : Q, (a == 1)%Q -> (b == 1)%Q ->
     modifier type (Some (Finite a)) (Some (Finite b)) = Return (GraphQLNonNull type))
  /\ (forall (min : option number) (b : Q),
       min = None \/ (exists a, min = Some (Finite a) /\ (a == 0)%Q) -> (b == 1)%Q ->
       modifier type min (Some (Finite b)) = Return type)
  /\ (forall min max : option number,
       max = None \/ max = Some Infinity \/ (exists b, max = Some (Finite b) /\ (1 < b)%Q) ->
       modifier type min max =
         Return (GraphQLNonNull (GraphQLList (GraphQLNonNull type))))
  /\ (forall min max : option number,
       max = Some NegInfinity \/ (exists b, max = Some (Finite b) /\ (b < 1)%Q) ->
       exists e, modifier type min max = Throw e /\ kindOf e = InvalidConstraint)
  /\ (forall (m : number) (b : Q),
       (b == 1)%Q ->
       (forall a, m = Finite a -> ~ (a == 0)%Q /\ ~ (a == 1)%Q) ->
       exists e, modifier type (Some m) (Some (Finite b)) = Throw e
                 /\ kindOf e = InvalidConstraint).
Proof.
  repeat split.
  - intros a b Ha Hb. rewrite modifier_one by exact Hb. simpl default.
    assert (E1 : num_eq (Finite a) (Int 1) = true).
    { apply num_eq_Finite. qarith. }
    rewrite E1. reflexivity.
  - intros min b Hmin Hb. rewrite modifier_one by exact Hb.
    destruct Hmin as [-> | (a & -> & Ha)]; simpl default; [reflexivity|].
    assert (E1 : num_eq (Finite a) (Int 1) = false).
    { apply num_eq_Finite_false. qarith. }
    assert (E0 : num_eq (Finite a) (Int 0) = true).
    { apply num_eq_Finite. qarith. }
    rewrite E1, E0. reflexivity.
  - intros min max Hmax. apply modifier_many, Hmax.
  - intros min max Hmax. exists FieldShouldNotExist.
    split; [apply modifier_none, Hmax | reflexivity].
  - intros m b Hb Hm. rewrite modifier_one by exact Hb. simpl default.
    assert (E1 : num_eq m (Int 1) = false).
    { destruct m as [|a| |]; try reflexivity.
      apply num_eq_Finite_false. apply (Hm a eq_refl). }
    assert (E0 : num_eq m (Int 0) = false).
    { destruct m as [|a| |]; try reflexivity.
      apply num_eq_Finite_false. apply (Hm a eq_refl). }
    rewrite E1, E0. eexists. split; reflexivity.
Qed.

Lemma modifier_cardinality_witness :
  modifier GraphQLDate (Some (Int 1)) (Some (Int 1)) = Return (GraphQLNonNull GraphQLDate)
  /\ modifier GraphQLDate (Some (Int 0)) (Some (Int 1)) = Return GraphQLDate
  /\ modifier GraphQLDate (Some (Int 0)) (Some (Int 2))
     = Return (GraphQLNonNull (GraphQLList (GraphQLNonNull GraphQLDate)))
  /\ modifier GraphQLDate (Some (Int 2)) (Some (Int 5))
     = Return (GraphQLNonNull (GraphQLList (GraphQLNonNull GraphQLDate)))
  /\ (exists e, modifier GraphQLDate (Some (Int 0)) (Some (Int 0)) = Throw e
                /\ kindOf e = InvalidConstraint)
  /\ (exists e, modifier GraphQLDate (Some (Int 2)) (Some (Int 1)) = Throw e
                /\ kindOf e = InvalidConstraint).
Proof.
  destruct (modifier_cardinality GraphQLDate) as (Hreq & Hopt & Hmany & Hnone & Hbad).
  split; [apply Hreq; reflexivity|].
  split; [apply Hopt; [right; exists (inject_Z 0); split; reflexivity | reflexivity]|].
  split; [apply Hmany; right; right; exists (inject_Z 2); split; reflexivity|].
  split; [apply Hmany; right; right; exists (inject_Z 5); split; reflexivity|].
  split; [apply Hnone; right; exists (inject_Z 0); split; reflexivity|].
  apply Hbad; [reflexivity|].
  intros a [= <-]. split; intros E; vm_compute in E; discriminate E.
Defined.

(** * The shape compiler: one property *)

Section Property.

Variable H : HandlerTypes.
Variable camelize : string -> string.

Lemma compileProperty_untyped (p : PropertyNode) :
  fieldTypeOf H p = None -> compileProperty H camelize p = Throw FieldTypeShouldBeDefined.
Proof. intros E. unfold compileProperty. rewrite E. reflexivity. Qed.

Lemma compileProperty_cardinality (p : PropertyNode) (ft : GraphQLOutputType) (e : Error) :
  fieldTypeOf H p = Some ft -> modifier ft (countOf (minCount p)) (countOf (maxCount p)) = Throw e -> compileProperty H camelize p = Throw e.
Proof. intros E1 E2. unfold compileProperty. rewrite E1, E2. reflexivity. Qed.

Lemma compileProperty_path (p : PropertyNode) (ft ft' : GraphQLOutputType) :
  fieldTypeOf H p = Some ft -> modifier ft (countOf (minCount p)) (countOf (maxCount p)) = Return ft' ->
  termType (path p) <> TNamedNode ->
  compileProperty H camelize p = Throw PathShouldBeNamedNode.
Proof.
  intros E1 E2 Hp. unfold compileProperty. rewrite E1, E2. simpl.
  destruct (path p); try reflexivity. contradiction Hp. reflexivity.
Qed.

Lemma compileProperty_unnamed (p : PropertyNode) (ft ft' : GraphQLOutputType) :
  fieldTypeOf H p = Some ft -> modifier ft (countOf (minCount p)) (countOf (maxCount p)) = Return ft' ->
  termType (path p) = TNamedNode ->
  fieldNameOf camelize p = None \/ fieldNameOf camelize p = Some EmptyString ->
  compileProperty H camelize p = Throw ExpectedFieldName.
Proof.
  intros E1 E2 Hp Hn. unfold compileProperty. rewrite E1, E2. simpl.
  destruct (path p); try discriminate Hp.
  destruct Hn as [-> | ->]; reflexivity.
Qed.

Lemma compileProperty_Return (p : PropertyNode) (fieldName : string) (field : PropertyInterface) :
  compileProperty H camelize p = Return (fieldName, field) ->
  exists ft,
    fieldTypeOf H p = Some ft /\ modifier ft (countOf (minCount p)) (countOf (maxCount p)) = Return (type field)
    /\ path p = NamedNode (iri field)
    /\ fieldNameOf camelize p = Some fieldName /\ fieldName <> EmptyString.
Proof.
  unfold compileProperty.
  destruct (fieldTypeOf H p) as [ft|] eqn:Et; [|intros E; discriminate E].
  destruct (modifier ft (countOf (minCount p)) (countOf (maxCount p)))
    as [ft'|e] eqn:Em; simpl; [|intros E; discriminate E].
  destruct (path p) as [v|v|v d|v| |] eqn:Ep; try (intros E; discriminate E).
  destruct (fieldNameOf camelize p) as [[|c r]|] eqn:En;
    try (intros E; discriminate E).
  intros [= <- <-]. exists ft. simpl. repeat split; congruence.
Qed.

(** A property without a name literal derives no field name. *)
Lemma fieldNameOf_no_literal (p : PropertyNode) :
  (forall t, t ∈ name p -> termType t <> TLiteral) -> fieldNameOf camelize p = None.
Proof.
  intros Hn. unfold fieldNameOf.
  destruct (name p) as [|t [|t' l]]; try reflexivity.
  rewrite bool_decide_eq_false_2; [reflexivity|].
  apply Hn. apply list_elem_of_here.
Qed.

(** Every property either yields a field or fails with one of the four
    structural kinds. *)
Lemma compileProperty_Throw_kind (p : PropertyNode) (e : Error) :
  compileProperty H camelize p = Throw e ->
  kindOf e = UnresolvedFieldType \/ kindOf e = InvalidConstraint
  \/ kindOf e = UnsupportedPath \/ kindOf e = MissingFieldName.
Proof.
  unfold compileProperty.
  destruct (fieldTypeOf H p) as [ft|]; [|intros [= <-]; auto].
  destruct (modifier ft (countOf (minCount p)) (countOf (maxCount p))) as [ft'|e'] eqn:Em; simpl.
  - destruct (path p); try (intros [= <-]; auto).
    destruct (fieldNameOf camelize p) as [[|c r]|]; intros [= <-]; auto.
  - intros [= <-]. right; left. eapply modifier_Throw_kind, Em.
Qed.

(** C10. The checks on one property have a fixed precedence: an unresolved
    value type fails first ([UnresolvedFieldType]), whatever the counts, the
    path and the name are; then a cardinality rejected by [modifier] fails
    ([InvalidConstraint]), whatever the path and the name are; then a path
    that is not a [NamedNode] fails ([UnsupportedPath]), whatever the name
    is; and only then a missing field name fails ([MissingFieldName]). *)
Theorem property_check_precedence (p : PropertyNode) :
  (fieldTypeOf H p = None ->
     compileProperty H camelize p = Throw FieldTypeShouldBeDefined
     /\ kindOf FieldTypeShouldBeDefined = UnresolvedFieldType)
  /\ (forall ft e, fieldTypeOf H p = Some ft -> modifier ft (countOf (minCount p)) (countOf (maxCount p)) = Throw e ->
       compileProperty H camelize p = Throw e /\ kindOf e = InvalidConstraint)
  /\ (forall ft ft', fieldTypeOf H p = Some ft -> modifier ft (countOf (minCount p)) (countOf (maxCount p)) = Return ft' ->
       termType (path p) <> TNamedNode ->
       compileProperty H camelize p = Throw PathShouldBeNamedNode
       /\ kindOf PathShouldBeNamedNode = UnsupportedPath)
  /\ (forall ft ft', fieldTypeOf H p = Some ft -> modifier ft (countOf (minCount p)) (countOf (maxCount p)) = Return ft' ->
       termType (path p) = TNamedNode ->
       fieldNameOf camelize p = None \/ fieldNameOf camelize p = Some EmptyString ->
       compileProperty H camelize p = Throw ExpectedFieldName
       /\ kindOf ExpectedFieldName = MissingFieldName).
Proof.
  split; [|split; [|split]].
  - intros E. split; [apply compileProperty_untyped, E | reflexivity].
  - intros ft e E1 E2. split.
    + eapply compileProperty_cardinality; eassumption.
    + eapply modifier_Throw_kind, E2.
  - intros ft ft' E1 E2 Hp. split; [|reflexivity].
    eapply compileProperty_path; eassumption.
  - intros ft ft' E1 E2 Hp Hn. split; [|reflexivity].
    eapply compileProperty_unnamed; eassumption.
Qed.

(** The failure of one property is the failure of the loop over the
    properties that holds it, hence of the shape: the first property that
    fails gives the error. *)
Lemma compileProperties_first_failure (l1 l2 : list PropertyNode) (p : PropertyNode)
    (e : Error) (m : PropertyFields) :
  Forall (fun q => exists nf, compileProperty H camelize q = Return nf) l1 ->
  compileProperty H camelize p = Throw e ->
  compileProperties H camelize (l1 ++ p :: l2) m = Throw e.
Proof.
  intros Hl1 Hp. revert m.
  induction Hl1 as [|q l1 [[n f] Hq] _ IH]; intros m; simpl.
  - rewrite Hp. reflexivity.
  - rewrite Hq. simpl. apply IH.
Qed.

Lemma compileProperties_failure (ps : list PropertyNode) (p : PropertyNode)
    (e : Error) (m : PropertyFields) :
  p ∈ ps -> compileProperty H camelize p = Throw e ->
  exists e', compileProperties H camelize ps m = Throw e'.
Proof.
  intros Hin Hp. revert m.
  induction Hin as [p ps | p q ps Hin IH]; intros m; simpl.
  - rewrite Hp. eexists; reflexivity.
  - destruct (compileProperty H camelize q) as [[n f]|e'']; simpl.
    + apply IH, Hp.
    + eexists; reflexivity.
Qed.

Lemma compileShape_failure (shape : ShapeNode) (p : PropertyNode) (e : Error) :
  p ∈ properties shape -> compileProperty H camelize p = Throw e ->
  exists e', compileShape H camelize shape = Throw e'.
Proof.
  intros Hin Hp. unfold compileShape.
  destruct (compileProperties_failure _ _ _ emptyObject Hin Hp) as [e' ->].
  eexists; reflexivity.
Qed.

(** C7 (amended). A property without a name literal yields no compiled
    field, and the shape that holds it is not compiled; the failure is
    [MissingFieldName] when the value type resolves, the counts are accepted
    and the path is a [NamedNode].  A property whose path is not a
    [NamedNode] yields no compiled field either, and its shape is not
    compiled; the failure is [UnsupportedPath] when the value type resolves
    and the counts are accepted.  Otherwise the earlier check that fails
    gives the error. *)
Theorem unnamed_or_composite_property_fails (shape : ShapeNode) (p : PropertyNode) :
  p ∈ properties shape ->
  ((forall t, t ∈ name p -> termType t <> TLiteral) ->
     (exists e, compileProperty H camelize p = Throw e)
     /\ (exists e, compileShape H camelize shape = Throw e)
     /\ (forall ft ft', fieldTypeOf H p = Some ft ->
          modifier ft (countOf (minCount p)) (countOf (maxCount p)) = Return ft' ->
          termType (path p) = TNamedNode ->
          compileProperty H camelize p = Throw ExpectedFieldName
          /\ kindOf ExpectedFieldName = MissingFieldName))
  /\ (termType (path p) <> TNamedNode ->
     (exists e, compileProperty H camelize p = Throw e)
     /\ (exists e, compileShape H camelize shape = Throw e)
     /\ (forall ft ft', fieldTypeOf H p = Some ft ->
          modifier ft (countOf (minCount p)) (countOf (maxCount p)) = Return ft' ->
          compileProperty H camelize p = Throw PathShouldBeNamedNode
          /\ kindOf PathShouldBeNamedNode = UnsupportedPath)).
Proof.
  intros Hin. split.
  - intros Hn. apply fieldNameOf_no_literal in Hn.
    assert (Hfail : exists e, compileProperty H camelize p = Throw e).
    { destruct (compileProperty H camelize p) as [[n f]|e] eqn:E; [|eauto].
      apply compileProperty_Return in E as (ft & _ & _ & _ & En & _). congruence. }
    split; [exact Hfail|]. split.
    + destruct Hfail as [e He]. eapply compileShape_failure; eassumption.
    + intros ft ft' E1 E2 Hp. split; [|reflexivity].
      eapply compileProperty_unnamed; eauto.
  - intros Hp.
    assert (Hfail : exists e, compileProperty H camelize p = Throw e).
    { destruct (compileProperty H camelize p) as [[n f]|e] eqn:E; [|eauto].
      apply compileProperty_Return in E as (ft & _ & _ & Epath & _).
      rewrite Epath in Hp. contradiction Hp. reflexivity. }
    split; [exact Hfail|]. split.
    + destruct Hfail as [e He]. eapply compileShape_failure; eassumption.
    + intros ft ft' E1 E2. split; [|reflexivity].
      eapply compileProperty_path; eassumption.
Qed.

(** C3 (amended). When the value type of a property resolves and its
    [sh:minCount] literal does not parse ([parseInt] gives [NaN]): the
    property fails with [InvalidConstraint] if [sh:maxCount] parses to a
    number that is at most 1; and if [sh:maxCount] is absent or parses to a
    number above 1, [minCount] is not consulted, the field is the required
    list of required base type and the property does not fail with
    [InvalidConstraint]. *)
Theorem unparsable_minCount (p : PropertyNode) (ft : GraphQLOutputType)
    (t : Term) (ts : list Term) :
  fieldTypeOf H p = Some ft ->
  minCount p = t :: ts -> parseInt (value t) = NaN ->
  (countOf (maxCount p) = Some NegInfinity
   \/ (exists b, countOf (maxCount p) = Some (Finite b) /\ (b <= 1)%Q) ->
   exists e, compileProperty H camelize p = Throw e /\ kindOf e = InvalidConstraint)
  /\ (countOf (maxCount p) = None \/ countOf (maxCount p) = Some Infinity
      \/ (exists b, countOf (maxCount p) = Some (Finite b) /\ (1 < b)%Q) ->
      modifier ft (countOf (minCount p)) (countOf (maxCount p))
        = Return (GraphQLNonNull (GraphQLList (GraphQLNonNull ft)))
      /\ forall e, compileProperty H camelize p = Throw e ->
                   kindOf e <> InvalidConstraint).
Proof.
  intros Et Emin Hnan.
  assert (Ecount : countOf (minCount p) = Some NaN).
  { rewrite Emin. simpl. rewrite Hnan. reflexivity. }
  split.
  - intros Hmax.
    assert (Hthrow : exists e,
      modifier ft (countOf (minCount p)) (countOf (maxCount p)) = Throw e).
    { rewrite Ecount. destruct Hmax as [-> | (b & -> & Hb)].
      - eexists; reflexivity.
      - destruct (Qlt_le_dec b 1) as [Hlt | Hge].
        + rewrite modifier_none; [eexists; reflexivity|]. right; eauto.
        + rewrite modifier_one by (apply Qle_antisym; assumption).
          eexists; reflexivity. }
    destruct Hthrow as [e He]. exists e. split.
    + eapply compileProperty_cardinality; eassumption.
    + eapply modifier_Throw_kind, He.
  - intros Hmax. pose proof (modifier_many ft (countOf (minCount p)) _ Hmax) as Em.
    split; [exact Em|].
    intros e He. unfold compileProperty in He. rewrite Et, Em in He. simpl in He.
    destruct (path p); try (injection He as <-; discriminate).
    destruct (fieldNameOf camelize p) as [[|c r]|];
      try discriminate He; injection He as <-; discriminate.
Qed.

End Property.

(** * The shape compiler: the fields of one shape *)

Section Fields.

Variable H : HandlerTypes.
Variable camelize : string -> string.


(** Properties that compile one by one compile together: nothing in the
    loop depends on the fields already stored. *)
Lemma compileProperties_total (ps : list PropertyNode) (m : PropertyFields) :
  Forall (fun q => exists nf, compileProperty H camelize q = Return nf) ps ->
  exists m', compileProperties H camelize ps m = Return m'.
Proof.
  intros Hps. revert m.
  induction Hps as [|q ps [[n f] Hq] _ IH]; intros m; simpl.
  - eexists; reflexivity.
  - rewrite Hq. simpl. apply IH.
Qed.

(** An assignment changes the own property of its key at most, and none
    when the key is ["__proto__"]. *)
Lemma assign_lookup_ne (k n : string) (f : PropertyInterface) (m : PropertyFields) :
  k <> n -> own_properties (assign k f m) !! n = own_properties m !! n.
Proof.
  intros Hne. unfold assign. destruct (String.eqb k "__proto__"); simpl.
  - reflexivity.
  - apply lookup_insert_ne, Hne.
Qed.

Lemma assign_lookup_eq (n : string) (f : PropertyInterface) (m : PropertyFields) :
  n <> "__proto__" -> own_properties (assign n f m) !! n = Some f.
Proof.
  intros Hn. unfold assign.
  destruct (String.eqb_spec n "__proto__"); [contradiction|]. simpl.
  apply lookup_insert_eq.
Qed.

Lemma assign_proto (f : PropertyInterface) (m : PropertyFields) :
  assign "__proto__" f m = {| own_properties := own_properties m; prototype := Some f |}.
Proof. reflexivity. Qed.

(** A name that no property of the list derives keeps its entry. *)
Lemma compileProperties_lookup_other (ps : list PropertyNode) (n : string)
    (m m' : PropertyFields) :
  (forall q f, q ∈ ps -> compileProperty H camelize q <> Return (n, f)) ->
  compileProperties H camelize ps m = Return m' ->
  own_properties m' !! n = own_properties m !! n.
Proof.
  revert m. induction ps as [|q ps IH]; intros m Hn; simpl.
  - intros [= <-]. reflexivity.
  - destruct (compileProperty H camelize q) as [[k f]|e] eqn:Eq; simpl;
      [|intros E; discriminate E].
    intros E. rewrite (IH (assign k f m)); [| |exact E].
    + apply assign_lookup_ne. intros ->.
      apply (Hn q f); [apply list_elem_of_here | exact Eq].
    + intros q' f' Hin. apply Hn. apply list_elem_of_further, Hin.
Qed.





(** Under the name ["__proto__"] no field is stored: a shape whose only
    properties derive that name is compiled with no field at all, the later
    property's entry being the prototype of the fields object. *)
Lemma proto_name_stores_no_field (shape : ShapeNode) (p1 p2 : PropertyNode)
    (f1 f2 : PropertyInterface) (t : Term) (ts : list Term) :
  properties shape = [p1; p2] ->
  shName shape = t :: ts ->
  compileProperty H camelize p1 = Return ("__proto__", f1) ->
  compileProperty H camelize p2 = Return ("__proto__", f2) ->
  exists config,
    compileShape H camelize shape = Return config
    /\ obj_properties config = {| own_properties := ∅; prototype := Some f2 |}.
Proof.
  intros Eps En E1 E2. unfold compileShape. rewrite Eps. simpl.
  rewrite E1. simpl. rewrite E2. simpl. rewrite En.
  eexists. split; reflexivity.
Qed.

(** A shape without [sh:name] whose properties compile: the read of
    [shName[0].value] throws. *)
Lemma compileShape_nameless (shape : ShapeNode) (m : PropertyFields) :
  shName shape = [] ->
  compileProperties H camelize (properties shape) emptyObject = Return m ->
  compileShape H camelize shape = Throw UndefinedValueRead.
Proof. intros En Em. unfold compileShape. rewrite Em, En. reflexivity. Qed.

(** [getMeshSource] on one shape: the shape compiled, then [createObject],
    then the schema of the one type. *)
Lemma getMeshSource_single {T S : Type} (createObject : ObjectConfig -> result string T)
    (newGraphQLSchema : list T -> result string S) (shape : ShapeNode) :
  getMeshSource H camelize createObject newGraphQLSchema (Some [shape])
    = (config ← compileShape H camelize shape;
       type ← outside CreateObjectThrew (createObject config);
       outside GraphQLSchemaThrew (newGraphQLSchema [type])).
Proof.
  unfold getMeshSource. simpl.
  destruct (compileShape H camelize shape) as [config|e]; simpl; [|reflexivity].
  destruct (createObject config); reflexivity.
Qed.

(** No failure of the compiler is a [MissingShapeName]. *)
Lemma no_MissingShapeName (e : Error) : kindOf e <> MissingShapeName.
Proof. destruct e; discriminate. Qed.

End Fields.

Lemma property_check_precedence_witness :
  compileProperty rdfLiteral camelize untyped_unnamed = Throw FieldTypeShouldBeDefined
  /\ compileProperty rdfLiteral camelize
       (prop (BlankNode "b0") [NamedNode (xsd "string")] [] [] [lit "0" "integer"])
     = Throw FieldShouldNotExist
  /\ compileProperty rdfLiteral camelize composite_unnamed = Throw PathShouldBeNamedNode
  /\ compileProperty rdfLiteral camelize unnamed = Throw ExpectedFieldName.
Proof.
  split; [|split; [|split]].
  - apply (property_check_precedence rdfLiteral camelize untyped_unnamed).
    reflexivity.
  - eapply (property_check_precedence rdfLiteral camelize
              (prop (BlankNode "b0") [NamedNode (xsd "string")] [] [] [lit "0" "integer"]));
      reflexivity.
  - eapply (property_check_precedence rdfLiteral camelize composite_unnamed);
      [reflexivity | reflexivity | discriminate].
  - eapply (property_check_precedence rdfLiteral camelize unnamed);
      [reflexivity | reflexivity | reflexivity | left; reflexivity].
Defined.

(** C7 as stated fails: a property with neither a name literal nor a
    datatype fails with [UnresolvedFieldType], not [MissingFieldName], and a
    property with a composite path and a [sh:maxCount] of 0 fails with
    [InvalidConstraint], not [UnsupportedPath]. *)
Lemma unnamed_property_other_failure :
  name untyped_unnamed = []
  /\ compileProperty rdfLiteral camelize untyped_unnamed = Throw FieldTypeShouldBeDefined
  /\ kindOf FieldTypeShouldBeDefined <> MissingFieldName
  /\ compileShape rdfLiteral camelize (shape [lit "Person" "string"] [untyped_unnamed])
     = Throw FieldTypeShouldBeDefined
  /\ compileProperty rdfLiteral camelize
       (prop (BlankNode "b0") [NamedNode (xsd "string")] [lit "label" "string"]
             [] [lit "0" "integer"])
     = Throw FieldShouldNotExist
  /\ kindOf FieldShouldNotExist <> UnsupportedPath.
Proof. repeat split; discriminate. Qed.

Lemma unnamed_or_composite_property_fails_witness :
  compileProperty rdfLiteral camelize unnamed = Throw ExpectedFieldName
  /\ compileProperty rdfLiteral camelize composite = Throw PathShouldBeNamedNode
  /\ (exists e, compileShape rdfLiteral camelize
                  (shape [lit "Person" "string"] [birthDate; unnamed]) = Throw e)
  /\ (exists e, compileShape rdfLiteral camelize
                  (shape [lit "Person" "string"] [birthDate; composite]) = Throw e).
Proof.
  assert (Hin1 : unnamed ∈ Shacl.properties (shape [lit "Person" "string"] [birthDate; unnamed])).
  { simpl. apply list_elem_of_further, list_elem_of_here. }
  assert (Hin2 : composite ∈ Shacl.properties (shape [lit "Person" "string"] [birthDate; composite])).
  { simpl. apply list_elem_of_further, list_elem_of_here. }
  assert (Hname : forall t, t ∈ name unnamed -> termType t <> TLiteral).
  { intros t Ht. apply list_elem_of_singleton in Ht. subst t. discriminate. }
  assert (Hpath : termType (path composite) <> TNamedNode) by discriminate.
  destruct (unnamed_or_composite_property_fails rdfLiteral camelize _ _ Hin1)
    as [Hn _].
  destruct (unnamed_or_composite_property_fails rdfLiteral camelize _ _ Hin2)
    as [_ Hp].
  destruct (Hn Hname) as (_ & Hs1 & Hk1).
  destruct (Hp Hpath) as (_ & Hs2 & Hk2).
  split; [eapply Hk1; reflexivity|].
  split; [eapply Hk2; reflexivity|].
  split; assumption.
Defined.

(** C3 as stated fails: [sh:minCount "abc"] next to [sh:maxCount 5] is
    accepted, and the field is a list. *)
Lemma unparsable_minCount_accepted :
  parseInt "abc" = NaN
  /\ compileProperty rdfLiteral camelize badMin_many
     = Return ("tag",
               {| iri := "http://example.org/tag";
                  type := GraphQLNonNull (GraphQLList (GraphQLNonNull GraphQLString));
                  description := None |}).
Proof. split; reflexivity. Qed.

Lemma unparsable_minCount_witness :
  (exists e, compileProperty rdfLiteral camelize badMin_one = Throw e
             /\ kindOf e = InvalidConstraint)
  /\ modifier GraphQLString (countOf (minCount badMin_many)) (countOf (maxCount badMin_many))
     = Return (GraphQLNonNull (GraphQLList (GraphQLNonNull GraphQLString))).
Proof.
  split.
  - eapply (unparsable_minCount rdfLiteral camelize badMin_one);
      [reflexivity | reflexivity | reflexivity |].
    right. exists (inject_Z 1). split; [reflexivity | discriminate].
  - eapply (unparsable_minCount rdfLiteral camelize badMin_many);
      [reflexivity | reflexivity | reflexivity |].
    right; right. exists (inject_Z 5). split; reflexivity.
Defined.


(** C8 (the code departs from it). A shape that has no [sh:name] at all is
    not compiled, but the failure is the engine's [TypeError] for reading
    [.value] of [undefined], whose kind is not [MissingShapeName]. *)
Theorem nameless_shape_generic_crash :
  compileShape rdfLiteral camelize (shape [] [birthDate]) = Throw UndefinedValueRead
  /\ kindOf UndefinedValueRead = GenericError
  /\ kindOf UndefinedValueRead <> MissingShapeName.
Proof. repeat split. discriminate. Qed.

End ShaclProps.

(** * The scalar codecs *)

Module ScalarsProps.
Import Scalars Sample.

(** The three checks that [string], [date], [int], [float] and [url] share,
    each one returning before the next is evaluated. *)
Ltac literal_checks :=
  repeat match goal with
  | |- context [bool_decide ?P] => destruct (bool_decide_reflect P); simpl
  | |- context [String.eqb ?a ?b] => destruct (String.eqb_spec a b); simpl
  end.

Section Decode.

Variable h : TypeHandler.
Variable URL_parse : string -> option string.

Lemma string_guards : guards_in_order (fun d => d ∈ TYPES h) (string_serialize h).
Proof.
  split.
  - intros [] Hk; try (eexists; split; reflexivity). contradiction Hk. reflexivity.
  - intros v dt Hd. simpl. literal_checks;
      try (eexists; split; reflexivity). tauto.
Qed.

Lemma date_guards : guards_in_order (fun d => d ∈ TYPES h) (date_serialize h).
Proof.
  split.
  - intros [] Hk; try (eexists; split; reflexivity). contradiction Hk. reflexivity.
  - intros v dt Hd. simpl. literal_checks;
      try (eexists; split; reflexivity). tauto.
Qed.

Lemma int_guards : guards_in_order (fun d => d ∈ TYPES h) (int_serialize h).
Proof.
  split.
  - intros [] Hk; try (eexists; split; reflexivity). contradiction Hk. reflexivity.
  - intros v dt Hd. simpl. literal_checks;
      try (eexists; split; reflexivity). tauto.
Qed.

Lemma float_guards : guards_in_order (fun d => d ∈ TYPES h) (float_serialize h).
Proof.
  split.
  - intros [] Hk; try (eexists; split; reflexivity). contradiction Hk. reflexivity.
  - intros v dt Hd. simpl. literal_checks;
      try (eexists; split; reflexivity). tauto.
Qed.

Lemma url_guards : guards_in_order (fun d => d = anyURI) (url_serialize URL_parse).
Proof.
  split.
  - intros [] Hk; try (eexists; split; reflexivity). contradiction Hk. reflexivity.
  - intros v dt Hd. simpl. literal_checks;
      try (eexists; split; reflexivity). tauto.
Qed.

Lemma string_checks_in_order :
  checks_in_order (fun d => d ∈ TYPES h) (fun term => fromRdf h term false)
    (fun r => String.eqb (typeof r) "string") (string_serialize h).
Proof.
  split; [apply string_guards|].
  intros v dt Hn Hr. simpl.
  rewrite (bool_decide_eq_true_2 _ Hn), (bool_decide_eq_true_2 _ Hr). simpl.
  destruct (fromRdf h (Literal v dt) false) as [r|m]; simpl; [|eauto].
  destruct (typeof r =? "string")%string; simpl; eauto.
Qed.

Lemma date_checks_in_order :
  checks_in_order (fun d => d ∈ TYPES h) (fun term => fromRdf h term true)
    instanceof_Date (date_serialize h).
Proof.
  split; [apply date_guards|].
  intros v dt Hn Hr. simpl.
  rewrite (bool_decide_eq_true_2 _ Hn), (bool_decide_eq_true_2 _ Hr). simpl.
  destruct (fromRdf h (Literal v dt) true) as [r|m]; simpl; [|eauto].
  destruct (instanceof_Date r); simpl; eauto.
Qed.

Lemma url_checks_in_order :
  checks_in_order (fun d => d = anyURI)
    (fun term => match URL_parse (value term) with
                 | Some href => Return (JURL href)
                 | None => Throw "Invalid URL"
                 end)
    instanceof_URL (url_serialize URL_parse).
Proof.
  split; [apply url_guards|].
  intros v dt Hn Hr. simpl.
  rewrite (bool_decide_eq_true_2 _ Hn), Hr. simpl.
  destruct (URL_parse v); simpl; eauto.
Qed.

(** Every decode ([serialize]) checks the kind of the term first, then the
    datatype of the literal, and returns at the first of the two that fails:
    a term of the wrong kind is a [ShapeMismatch] whatever else holds, and a
    literal of a datatype that is not recognized is a [DatatypeMismatch]
    whatever its lexical value and whatever the handler would do with it.
    In [string], [date] and [url] the validity of the value comes third: the
    literal decodes to what it reads as when that is a value of the native
    type, and is a [LexicalError] otherwise.  The [ID] decode has the first
    check only. *)
Theorem decode_guards_and_validity (scalarName : string) :
  checks_in_order (fun d => d ∈ TYPES h) (fun term => fromRdf h term false)
    (fun r => String.eqb (typeof r) "string") (string_serialize h)
  /\ checks_in_order (fun d => d ∈ TYPES h) (fun term => fromRdf h term true)
       instanceof_Date (date_serialize h)
  /\ checks_in_order (fun d => d = anyURI)
       (fun term => match URL_parse (value term) with
                    | Some href => Return (JURL href)
                    | None => Throw "Invalid URL"
                    end)
       instanceof_URL (url_serialize URL_parse)
  /\ guards_in_order (fun d => d ∈ TYPES h) (int_serialize h)
  /\ guards_in_order (fun d => d ∈ TYPES h) (float_serialize h)
  /\ (forall term, termType term <> TNamedNode ->
       exists e, ID_serialize scalarName term = Throw e /\ kindOf e = ShapeMismatch)
  /\ (forall term, termType term = TNamedNode ->
       ID_serialize scalarName term = Return (JString (value term))).
Proof.
  split; [apply string_checks_in_order|].
  split; [apply date_checks_in_order|].
  split; [apply url_checks_in_order|].
  split; [apply int_guards|].
  split; [apply float_guards|].
  split.
  - intros term Hk. unfold ID_serialize.
    rewrite bool_decide_eq_false_2 by exact Hk. simpl. eexists; split; reflexivity.
  - intros term Hk. unfold ID_serialize.
    rewrite bool_decide_eq_true_2 by exact Hk. reflexivity.
Qed.

(** C4 (the code departs from it). In the [int] and [float] decodes the
    third check is not a check of validity: a literal of a recognized
    datatype that the handler reads as a number is rejected with
    [`Expected node to have number value`], so neither decode keeps the
    discipline of [checks_in_order] for the numbers.  The first two checks
    and their order are kept ([int_guards], [float_guards]). *)
Theorem numeric_validity_check_inverted (v : string) (dt : Term) (r : JsValue) :
  termType dt = TNamedNode -> value dt ∈ TYPES h ->
  fromRdf h (Literal v dt) true = Return r -> typeof r = "number" ->
  int_serialize h (Literal v dt) = Throw (ExpectedNodeNumberValue r)
  /\ float_serialize h (Literal v dt) = Throw (ExpectedNodeNumberValue r)
  /\ ~ checks_in_order (fun d => d ∈ TYPES h) (fun term => fromRdf h term true)
         (fun r => String.eqb (typeof r) "number") (int_serialize h)
  /\ ~ checks_in_order (fun d => d ∈ TYPES h) (fun term => fromRdf h term true)
         (fun r => String.eqb (typeof r) "number") (float_serialize h).
Proof.
  intros Hn Hr Ef Ht.
  assert (Ei : int_serialize h (Literal v dt) = Throw (ExpectedNodeNumberValue r)).
  { simpl. rewrite (bool_decide_eq_true_2 _ Hn), (bool_decide_eq_true_2 _ Hr). simpl.
    rewrite Ef. simpl. rewrite Ht. reflexivity. }
  assert (Efl : float_serialize h (Literal v dt) = Throw (ExpectedNodeNumberValue r)).
  { simpl. rewrite (bool_decide_eq_true_2 _ Hn), (bool_decide_eq_true_2 _ Hr). simpl.
    rewrite Ef. simpl. rewrite Ht. reflexivity. }
  split; [exact Ei|]. split; [exact Efl|]. split.
  - intros [_ Hvalid]. specialize (Hvalid v dt Hn Hr). cbv beta in Hvalid.
    rewrite Ef in Hvalid. cbv beta iota in Hvalid.
    rewrite Ht, String.eqb_refl, Ei in Hvalid. discriminate Hvalid.
  - intros [_ Hvalid]. specialize (Hvalid v dt Hn Hr). cbv beta in Hvalid.
    rewrite Ef in Hvalid. cbv beta iota in Hvalid.
    rewrite Ht, String.eqb_refl, Efl in Hvalid. discriminate Hvalid.
Qed.

(** The three failure kinds of a decode are pairwise distinct. *)
Lemma decode_kinds_distinct :
  ShapeMismatch <> DatatypeMismatch /\ DatatypeMismatch <> LexicalError
  /\ ShapeMismatch <> LexicalError.
Proof. repeat split; discriminate. Qed.

(** *** Encode, and encode followed by decode *)

(** The [int] and [float] decodes never yield a number. *)
Lemma int_serialize_not_number (term : Term) (r : JsValue) :
  int_serialize h term = Return r -> typeof r <> "number".
Proof.
  destruct term; simpl; try discriminate. literal_checks; try discriminate.
  destruct (fromRdf h _ true) as [r'|m]; simpl; [|discriminate].
  destruct (String.eqb_spec (typeof r') "number"); [discriminate|].
  intros [= <-]. assumption.
Qed.

Lemma float_serialize_not_number (term : Term) (r : JsValue) :
  float_serialize h term = Return r -> typeof r <> "number".
Proof.
  destruct term; simpl; try discriminate. literal_checks; try discriminate.
  destruct (fromRdf h _ true) as [r'|m]; simpl; [|discriminate].
  destruct (String.eqb_spec (typeof r') "number"); [discriminate|].
  intros [= <-]. assumption.
Qed.

(** C1 (the code departs from it). Encoding a number with the [int] or the
    [float] codec throws, so encode followed by decode does not give the
    number back: the guard of [parseValue] rejects exactly the values whose
    [typeof] is ['number']. *)
Theorem numeric_roundtrip_throws (n : number) :
  roundtrip (int_parseValue h) (int_serialize h) (JNumber n)
    = Throw (ExpectedNodeNumberValue (JNumber n))
  /\ roundtrip (float_parseValue h) (float_serialize h) (JNumber n)
    = Throw (ExpectedNodeNumberValue (JNumber n)).
Proof. split; reflexivity. Qed.

(** C9 (the code departs from it). The [int] and [float] encoders produce no
    literal at all for a number, hence none of the canonical datatype. *)
Theorem numeric_encode_throws (n : number) :
  int_parseValue h (JNumber n) = Throw (ExpectedNodeNumberValue (JNumber n))
  /\ float_parseValue h (JNumber n) = Throw (ExpectedNodeNumberValue (JNumber n))
  /\ (forall literal, int_parseValue h (JNumber n) <> Return literal)
  /\ (forall literal, float_parseValue h (JNumber n) <> Return literal).
Proof. repeat split; discriminate. Qed.

(** The encoders that do what the two claims say. *)
Lemma url_parseValue_canonical (v : JsValue) (literal : Term) :
  url_parseValue v = Return literal ->
  exists href, v = JURL href /\ literal = Literal href (NamedNode anyURI).
Proof. destruct v; simpl; intros [= <-]. eauto. Qed.

Lemma string_parseValue_canonical (s : string) :
  string_parseValue h (JString s)
    = calling ToRdfThrew (toRdf h (JString s) (Some (NamedNode xsd_string))).
Proof. reflexivity. Qed.

Lemma ID_roundtrip (scalarName s : string) :
  roundtrip ID_parseValue (ID_serialize scalarName) (JString s) = Return (JString s).
Proof. reflexivity. Qed.

Lemma url_roundtrip (href : string) :
  URL_parse href = Some href ->
  roundtrip url_parseValue (url_serialize URL_parse) (JURL href) = Return (JURL href).
Proof.
  intros E. unfold roundtrip. simpl. rewrite E. reflexivity.
Qed.

End Decode.

Lemma decode_guards_and_validity_witness :
  (exists e, string_serialize stringHandler (NamedNode "http://example.org/x") = Throw e
             /\ kindOf e = ShapeMismatch)
  /\ (exists e, string_serialize stringHandler (lit "5" "integer") = Throw e
                /\ kindOf e = DatatypeMismatch)
  /\ string_serialize stringHandler (lit "Ada" "string") = Return (JString "Ada")
  /\ (exists e, url_serialize URL_parse (lit "not a url" "anyURI") = Throw e
                /\ kindOf e = LexicalError)
  /\ (exists e, ID_serialize "ID" (lit "x" "string") = Throw e /\ kindOf e = ShapeMismatch).
Proof.
  destruct (decode_guards_and_validity stringHandler URL_parse "ID")
    as (((Hkind & Hdt) & Hstr) & _ & (_ & Hurl) & _ & _ & Hid & _).
  split; [apply Hkind; discriminate|].
  split.
  { apply Hdt. intros [_ Hin]. apply (bool_decide_pack _) in Hin.
    vm_compute in Hin. exact Hin. }
  split.
  { apply (Hstr "Ada" (NamedNode (xsd "string"))); [reflexivity|].
    apply (bool_decide_unpack _). vm_compute. exact I. }
  split; [apply (Hurl "not a url" (NamedNode (xsd "anyURI"))); reflexivity|].
  apply Hid. discriminate.
Defined.

Lemma numeric_validity_check_inverted_witness :
  fromRdf intHandler (lit "5" "integer") true = Return (JNumber (Int 5))
  /\ int_serialize intHandler (lit "5" "integer")
     = Throw (ExpectedNodeNumberValue (JNumber (Int 5)))
  /\ float_serialize intHandler (lit "5" "integer")
     = Throw (ExpectedNodeNumberValue (JNumber (Int 5))).
Proof.
  split; [reflexivity|].
  destruct (numeric_validity_check_inverted intHandler "5" (NamedNode (xsd "integer"))
              (JNumber (Int 5))) as (Hint & Hfloat & _).
  - reflexivity.
  - apply (bool_decide_unpack _). vm_compute. exact I.
  - reflexivity.
  - reflexivity.
  - split; [exact Hint | exact Hfloat].
Defined.

End ScalarsProps.

(** * The identifier helper: [nodeFromDirective] *)

Module DirectiveProps.
Import Directive.

Lemma nodeFromDirective_iri (v directiveName : string) :
  nodeFromDirective (Some [("iri", JString v)]) directiveName = Return (JTerm (NamedNode v)).
Proof. reflexivity. Qed.

Lemma nodeFromDirective_arity (directive : option (list (string * JsValue)))
    (directiveName : string) :
  directive = None \/ (exists entries, directive = Some entries /\ length entries <> 1%nat) ->
  exists e, nodeFromDirective directive directiveName = Throw e /\ kindOf e = ArityError.
Proof.
  intros [-> | (entries & -> & Hlen)]; simpl; [eexists; split; reflexivity|].
  destruct entries as [|[key v] [|]]; try (eexists; split; reflexivity).
  contradiction Hlen. reflexivity.
Qed.

Lemma nodeFromDirective_value (key : string) (v : JsValue) (directiveName : string) :
  typeof v <> "string" ->
  exists e, nodeFromDirective (Some [(key, v)]) directiveName = Throw e
            /\ kindOf e = TypeError.
Proof.
  intros Hv. destruct v; simpl; try (eexists; split; reflexivity).
  contradiction Hv. reflexivity.
Qed.

Lemma nodeFromDirective_unknown_key (key v directiveName : string) :
  key ∉ mapping_keys ++ ObjectPrototype_keys ->
  nodeFromDirective (Some [(key, JString v)]) directiveName
    = Throw (ExpectedKeyToBeOneOf "iri" key).
Proof.
  intros Hk. apply not_elem_of_app in Hk as [Hown Hproto]. simpl.
  unfold key_in_mapping.
  rewrite (bool_decide_eq_false_2 _ Hown), (bool_decide_eq_false_2 _ Hproto).
  reflexivity.
Qed.

(** C5 (the code departs from it). A single key other than ["iri"] with a
    text value is not always rejected: [key in mapping] also holds of the
    names that [mapping] inherits from [Object.prototype], and for
    ["toString"] the helper returns the text ["[object Object]"] instead of
    throwing the error that names ["iri"] as the only supported key. *)
Theorem inherited_key_accepted :
  nodeFromDirective (Some [("toString", JString "x")]) "identifier"
    = Return (JString "[object Object]")
  /\ "toString" <> "iri"
  /\ nodeFromDirective (Some [("foo", JString "x")]) "identifier"
    = Throw (ExpectedKeyToBeOneOf "iri" "foo").
Proof. repeat split. discriminate. Qed.

End DirectiveProps.

(** * More on the shape compiler *)

Module ShaclMore.
Import Shacl Sample ShaclProps.

Section Resolution.

Variable tables : HandlerTypes.
Variable camelize : string -> string.

(** [getDatatype] returns the type of the first table of [mappings] that
    holds the IRI. *)
Lemma getDatatype_first_match (t : Term) (g : GraphQLOutputType) :
  getDatatype tables t = Some g <->
  (g = GraphQLString /\ (value t ∈ TypeHandlerString_TYPES tables))
  \/ (g = GraphQLInt /\ (value t ∉ TypeHandlerString_TYPES tables)
      /\ (value t ∈ TypeHandlerNumberInteger_TYPES tables))
  \/ (g = GraphQLDouble /\ (value t ∉ TypeHandlerString_TYPES tables)
      /\ (value t ∉ TypeHandlerNumberInteger_TYPES tables)
      /\ (value t ∈ TypeHandlerNumberDouble_TYPES tables))
  \/ (g = GraphQLDate /\ (value t ∉ TypeHandlerString_TYPES tables)
      /\ (value t ∉ TypeHandlerNumberInteger_TYPES tables)
      /\ (value t ∉ TypeHandlerNumberDouble_TYPES tables)
      /\ (value t ∈ TypeHandlerDate_TYPES tables))
  \/ (g = GraphQLBoolean /\ (value t ∉ TypeHandlerString_TYPES tables)
      /\ (value t ∉ TypeHandlerNumberInteger_TYPES tables)
      /\ (value t ∉ TypeHandlerNumberDouble_TYPES tables)
      /\ (value t ∉ TypeHandlerDate_TYPES tables)
      /\ value t = TypeHandlerBoolean_TYPE tables).
Proof.
  unfold getDatatype, mappings. simpl.
  repeat case_bool_decide;
    repeat match goal with
    | Hs : _ ∈ [_] |- _ => apply list_elem_of_singleton in Hs
    | Hs : _ ∉ [_] |- _ => rewrite list_elem_of_singleton in Hs
    end; intuition (try congruence).
Qed.

(** The value type of a property resolves exactly when it has one
    [sh:datatype], a [NamedNode], whose IRI is in a handler table; the tables
    are tried in the order String, Integer, Double, Date, Boolean. *)
Theorem fieldTypeOf_resolves (p : PropertyNode) (g : GraphQLOutputType) :
  fieldTypeOf tables p = Some g <->
  exists iri, datatype p = [NamedNode iri] /\ getDatatype tables (NamedNode iri) = Some g.
Proof.
  unfold fieldTypeOf, getDatatypeSafe. split.
  - destruct (datatype p) as [|t [|t' l]]; try discriminate.
    destruct t; simpl; try discriminate. eauto.
  - intros (iri & -> & Hg). simpl. exact Hg.
Qed.

(** A value type that resolves is one of the five scalars of [mappings]. *)
Lemma fieldTypeOf_scalar (p : PropertyNode) (g : GraphQLOutputType) :
  fieldTypeOf tables p = Some g ->
  g ∈ [GraphQLString; GraphQLInt; GraphQLDouble; GraphQLDate; GraphQLBoolean].
Proof.
  unfold fieldTypeOf, getDatatypeSafe, getDatatype, mappings.
  destruct (datatype p) as [|t [|t' l]]; try (intros E; discriminate E).
  simpl. repeat case_bool_decide; intros E; try discriminate E;
    injection E as <-; repeat constructor.
Qed.

(** [modifier] wraps its argument in one of three ways only. *)
Lemma modifier_Return_shape (type r : GraphQLOutputType) (min max : option number) :
  modifier type min max = Return r ->
  r = type \/ r = GraphQLNonNull type
  \/ r = GraphQLNonNull (GraphQLList (GraphQLNonNull type)).
Proof.
  unfold modifier.
  repeat match goal with |- context [if ?c then _ else _] => destruct c end;
    intros [= <-]; auto.
Qed.

(** The type of a compiled field is one of the five scalars of [mappings],
    as it is (optional), non-null, or as the non-null list of non-null
    elements: no other nesting is produced. *)
Theorem compiled_field_type_shape (p : PropertyNode) (n : string) (f : PropertyInterface) :
  compileProperty tables camelize p = Return (n, f) ->
  exists base,
    base ∈ [GraphQLString; GraphQLInt; GraphQLDouble; GraphQLDate; GraphQLBoolean]
    /\ (type f = base \/ type f = GraphQLNonNull base
        \/ type f = GraphQLNonNull (GraphQLList (GraphQLNonNull base))).
Proof.
  intros E. apply compileProperty_Return in E as (ft & Et & Em & _).
  exists ft. split.
  - eapply fieldTypeOf_scalar, Et.
  - eapply modifier_Return_shape, Em.
Qed.

(** A [sh:maxCount] literal that does not parse is taken for a [maxCount]
    of 1: [NaN] passes both guards on [maxCount], and [minCount] alone
    decides between the required scalar, the optional scalar and the
    failure. *)
Theorem unparsable_maxCount_as_one (type : GraphQLOutputType) (min : option number)
    (t : Term) (ts : list Term) :
  parseInt (value t) = NaN ->
  ((exists a, min = Some (Finite a) /\ (a == 1)%Q) ->
     modifier type min (countOf (t :: ts)) = Return (GraphQLNonNull type))
  /\ (min = None \/ (exists a, min = Some (Finite a) /\ (a == 0)%Q) ->
     modifier type min (countOf (t :: ts)) = Return type)
  /\ (forall m, min = Some m ->
       (forall a, m = Finite a -> ~ (a == 0)%Q /\ ~ (a == 1)%Q) ->
       modifier type min (countOf (t :: ts)) = Throw (InvalidSHACLConstraint m NaN)).
Proof.
  intros Hnan. simpl countOf. rewrite Hnan. unfold modifier. simpl.
  split; [|split].
  - intros (a & -> & Ha). simpl default.
    assert (E1 : num_eq (Finite a) (Int 1) = true) by (apply num_eq_Finite; qarith).
    rewrite E1. reflexivity.
  - intros [-> | (a & -> & Ha)]; simpl default; [reflexivity|].
    assert (E1 : num_eq (Finite a) (Int 1) = false)
      by (apply num_eq_Finite_false; qarith).
    assert (E0 : num_eq (Finite a) (Int 0) = true) by (apply num_eq_Finite; qarith).
    rewrite E1, E0. reflexivity.
  - intros m -> Hm. simpl default.
    assert (E1 : num_eq m (Int 1) = false).
    { destruct m as [|a| |]; try reflexivity.
      apply num_eq_Finite_false. apply (Hm a eq_refl). }
    assert (E0 : num_eq m (Int 0) = false).
    { destruct m as [|a| |]; try reflexivity.
      apply num_eq_Finite_false. apply (Hm a eq_refl). }
    rewrite E1, E0. reflexivity.
Qed.

(** Only [sh:path], [sh:datatype], [sh:name] and the two counts decide
    whether a property compiles, under which name and with which IRI and
    type: [sh:nodeKind] and [sh:class] are never read, and [sh:description]
    only fills the description of the field. *)
Theorem compileProperty_reads (p q : PropertyNode) :
  path p = path q -> datatype p = datatype q -> name p = name q ->
  minCount p = minCount q -> maxCount p = maxCount q ->
  match compileProperty tables camelize p, compileProperty tables camelize q with
  | Return (n, f), Return (n', f') => n = n' /\ iri f = iri f' /\ type f = type f'
  | Throw e, Throw e' => e = e'
  | _, _ => False
  end.
Proof.
  intros Ep Ed En Emin Emax.
  unfold compileProperty, fieldTypeOf, fieldNameOf. rewrite Ep, Ed, En, Emin, Emax.
  destruct (match datatype q with [t] => getDatatypeSafe tables t | _ => None end)
    as [ft|]; [|reflexivity].
  destruct (modifier ft (countOf (minCount q)) (countOf (maxCount q))) as [ft'|e];
    simpl; [|reflexivity].
  destruct (path q); try reflexivity.
  destruct (match name q with
            | [t] => if bool_decide (termType t = TLiteral)
                     then Some (camelize (value t)) else None
            | _ => None
            end) as [[|c r]|]; simpl; auto.
Qed.

End Resolution.

Lemma unparsable_maxCount_as_one_witness :
  modifier GraphQLString (Some (Int 1)) (countOf (maxCount badMax))
    = Return (GraphQLNonNull GraphQLString)
  /\ modifier GraphQLString (countOf (minCount badMax)) (countOf (maxCount badMax))
     = Return GraphQLString
  /\ modifier GraphQLString (Some (Int 3)) (countOf (maxCount badMax))
     = Throw (InvalidSHACLConstraint (Int 3) NaN).
Proof.
  destruct (unparsable_maxCount_as_one GraphQLString (Some (Int 1))
              (lit "abc" "integer") [] eq_refl) as (H1 & _ & _).
  destruct (unparsable_maxCount_as_one GraphQLString None
              (lit "abc" "integer") [] eq_refl) as (_ & H0 & _).
  destruct (unparsable_maxCount_as_one GraphQLString (Some (Int 3))
              (lit "abc" "integer") [] eq_refl) as (_ & _ & H3).
  split; [apply H1; exists (inject_Z 1); split; reflexivity|].
  split; [apply H0; left; reflexivity|].
  apply H3; [reflexivity|].
  intros a [= <-]. split; intros E; vm_compute in E; discriminate E.
Defined.

Lemma fieldTypeOf_resolves_witness :
  fieldTypeOf rdfLiteral birthDate = Some GraphQLDate.
Proof.
  apply (fieldTypeOf_resolves rdfLiteral birthDate GraphQLDate).
  exists (xsd "date"). split; reflexivity.
Defined.

Lemma getDatatype_first_match_witness :
  getDatatype rdfLiteral (NamedNode (xsd "anyURI")) = Some GraphQLString.
Proof.
  apply (getDatatype_first_match rdfLiteral). left. split; [reflexivity|].
  apply (bool_decide_unpack _). vm_compute. exact I.
Defined.

Lemma compiled_field_type_shape_witness :
  exists base,
    base ∈ [GraphQLString; GraphQLInt; GraphQLDouble; GraphQLDate; GraphQLBoolean]
    /\ (GraphQLNonNull GraphQLString = base
        \/ GraphQLNonNull GraphQLString = GraphQLNonNull base
        \/ GraphQLNonNull GraphQLString = GraphQLNonNull (GraphQLList (GraphQLNonNull base))).
Proof.
  exact (compiled_field_type_shape rdfLiteral camelize birthDate' _ _ eq_refl).
Defined.

Lemma compileProperty_reads_witness :
  match compileProperty rdfLiteral camelize birthDate,
        compileProperty rdfLiteral camelize
          {| path := ex "birthDate"; datatype := [NamedNode (xsd "date")];
             nodeKind := [NamedNode "http://www.w3.org/ns/shacl#Literal"];
             clss := [ex "Day"]; name := [lit "birth date" "string"];
             maxCount := [lit "1" "integer"]; minCount := [lit "0" "integer"];
             propDescription := [lit "The day of birth" "string"] |} with
  | Return (n, f), Return (n', f') => n = n' /\ iri f = iri f' /\ type f = type f'
  | Throw e, Throw e' => e = e'
  | _, _ => False
  end.
Proof.
  apply (compileProperty_reads rdfLiteral camelize); reflexivity.
Defined.

(** * More on the shape compiler: shapes and schemas *)

Section Shapes.

Variable tables : HandlerTypes.
Variable camelize : string -> string.

(** The loop over the properties returns only if every property compiles. *)
Lemma compileProperties_Return_all (ps : list PropertyNode)
    (m m' : PropertyFields) :
  compileProperties tables camelize ps m = Return m' ->
  Forall (fun q => exists nf, compileProperty tables camelize q = Return nf) ps.
Proof.
  revert m. induction ps as [|q ps IH]; intros m; simpl; [constructor|].
  destruct (compileProperty tables camelize q) as [[n f]|e] eqn:Eq; simpl;
    [|intros E; discriminate E].
  intros E. constructor; [eauto | eapply IH, E].
Qed.

(** A shape compiles exactly when each of its properties compiles on its
    own and it has at least one [sh:name] value. *)
Theorem compileShape_succeeds (shape : ShapeNode) :
  (exists config, compileShape tables camelize shape = Return config) <->
  Forall (fun q => exists nf, compileProperty tables camelize q = Return nf)
         (properties shape)
  /\ shName shape <> [].
Proof.
  unfold compileShape. split.
  - intros [config E].
    destruct (compileProperties tables camelize (properties shape) emptyObject) as [m|e] eqn:Em;
      simpl in E; [|discriminate E].
    split; [eapply compileProperties_Return_all, Em|].
    destruct (shName shape); [discriminate E | discriminate].
  - intros [Hps Hn].
    destruct (compileProperties_total tables camelize _ emptyObject Hps) as [m ->]. simpl.
    destruct (shName shape); [contradiction Hn; reflexivity | eauto].
Qed.

(** The failure of the first property that fails is the failure of the
    shape, also when the shape has no [sh:name]: the properties are compiled
    before the name is read. *)
Theorem compileShape_first_failure (shape : ShapeNode)
    (l1 l2 : list PropertyNode) (p : PropertyNode) (e : Error) :
  properties shape = l1 ++ p :: l2 ->
  Forall (fun q => exists nf, compileProperty tables camelize q = Return nf) l1 ->
  compileProperty tables camelize p = Throw e ->
  compileShape tables camelize shape = Throw e.
Proof.
  intros Eps Hl1 Hp. unfold compileShape. rewrite Eps.
  rewrite (compileProperties_first_failure tables camelize l1 l2 p e emptyObject Hl1 Hp).
  reflexivity.
Qed.

(** What the loop over the properties leaves in [propertyFields]: the
    entries that were there, and entries of the properties. *)
Lemma compileProperties_lookup (ps : list PropertyNode)
    (m m' : PropertyFields) (n : string) (f : PropertyInterface) :
  compileProperties tables camelize ps m = Return m' ->
  own_properties m' !! n = Some f ->
  own_properties m !! n = Some f
  \/ exists p, p ∈ ps /\ compileProperty tables camelize p = Return (n, f).
Proof.
  revert m. induction ps as [|q ps IH]; intros m; simpl.
  - intros [= <-] Hm. left. exact Hm.
  - destruct (compileProperty tables camelize q) as [[k g]|e] eqn:Eq; simpl;
      [|intros E; discriminate E].
    intros E Hm. destruct (IH _ E Hm) as [Hins | (p & Hin & Hp)].
    + destruct (decide (k = n)) as [-> | Hne].
      * unfold assign in Hins. destruct (String.eqb n "__proto__"); simpl in Hins.
        -- left. exact Hins.
        -- rewrite lookup_insert_eq in Hins. injection Hins as <-.
           right. exists q. split; [apply list_elem_of_here | exact Eq].
      * rewrite assign_lookup_ne in Hins by exact Hne. left. exact Hins.
    + right. exists p. split; [apply list_elem_of_further, Hin | exact Hp].
Qed.

Lemma assign_size (k : string) (g : PropertyInterface) (m : PropertyFields) :
  (size (own_properties (assign k g m)) <= S (size (own_properties m)))%nat.
Proof.
  unfold assign. destruct (String.eqb k "__proto__"); simpl; [lia|].
  destruct (own_properties m !! k) eqn:Ek.
  - rewrite map_size_insert_Some by eauto. lia.
  - rewrite map_size_insert_None by exact Ek. lia.
Qed.

Lemma compileProperties_size (ps : list PropertyNode) (m m' : PropertyFields) :
  compileProperties tables camelize ps m = Return m' ->
  (size (own_properties m') <= size (own_properties m) + length ps)%nat.
Proof.
  revert m. induction ps as [|q ps IH]; intros m; simpl.
  - intros [= <-]. lia.
  - destruct (compileProperty tables camelize q) as [[k g]|e]; simpl;
      [|intros E; discriminate E].
    intros E. apply IH in E. pose proof (assign_size k g m). lia.
Qed.

(** Every field of a compiled shape is the field of one of its properties,
    stored under the name that property derives, which is not empty; so the
    shape has at most as many fields as properties. *)
Theorem compiled_fields_provenance (shape : ShapeNode) (config : ObjectConfig) :
  compileShape tables camelize shape = Return config ->
  (forall n f, own_properties (obj_properties config) !! n = Some f ->
     n <> EmptyString
     /\ exists p, p ∈ properties shape
                  /\ compileProperty tables camelize p = Return (n, f)
                  /\ path p = NamedNode (iri f))
  /\ (size (own_properties (obj_properties config)) <= length (properties shape))%nat.
Proof.
  unfold compileShape. intros E.
  destruct (compileProperties tables camelize (properties shape) emptyObject) as [m|e] eqn:Em;
    simpl in E; [|discriminate E].
  destruct (shName shape); [discriminate E|]. injection E as <-. simpl.
  split.
  - intros n f Hm.
    destruct (compileProperties_lookup _ _ _ _ _ Em Hm) as [Hempty | (p & Hin & Hp)].
    + simpl in Hempty. rewrite lookup_empty in Hempty. discriminate Hempty.
    + pose proof (compileProperty_Return tables camelize _ _ _ Hp)
        as (ft & _ & _ & Hpath & _ & Hne).
      split; [exact Hne|]. exists p. auto.
  - apply compileProperties_size in Em. simpl in Em. rewrite map_size_empty in Em. exact Em.
Qed.

(** Distinct names that are ordinary keys and not yet in [propertyFields]
    each add an entry. *)
Lemma compileProperties_distinct (ps : list PropertyNode) (m m' : PropertyFields) :
  compileProperties tables camelize ps m = Return m' ->
  NoDup (omap (fun q => match compileProperty tables camelize q with
                        | Return nf => Some nf.1
                        | Throw _ => None
                        end) ps) ->
  (forall q n f, q ∈ ps -> compileProperty tables camelize q = Return (n, f) ->
                 n <> "__proto__" /\ own_properties m !! n = None) ->
  size (own_properties m') = (size (own_properties m) + length ps)%nat
  /\ forall q n f, q ∈ ps -> compileProperty tables camelize q = Return (n, f) ->
                   own_properties m' !! n = Some f.
Proof.
  revert m. induction ps as [|p ps IH]; intros m; simpl.
  - intros [= <-] _ _. split; [lia|]. intros q n f Hq. apply elem_of_nil in Hq.
    contradiction.
  - destruct (compileProperty tables camelize p) as [[k g]|e] eqn:Ep; simpl;
      [|intros E; discriminate E].
    intros E Hnd Hfresh. apply NoDup_cons in Hnd as [Hk Hnd].
    assert (Hother : forall q n f, q ∈ ps ->
              compileProperty tables camelize q = Return (n, f) -> n <> k).
    { intros q n f Hq Eq ->. apply Hk. apply list_elem_of_omap.
      exists q. split; [exact Hq|]. rewrite Eq. reflexivity. }
    destruct (Hfresh p k g (list_elem_of_here _ _) Ep) as [Hkey Hnew].
    destruct (IH (assign k g m) E Hnd) as [Hsize Hall].
    { intros q n f Hq Eq. split.
      - eapply Hfresh; [apply list_elem_of_further, Hq | exact Eq].
      - rewrite assign_lookup_ne by (symmetry; eauto).
        eapply Hfresh; [apply list_elem_of_further, Hq | exact Eq]. }
    split.
    + rewrite Hsize. unfold assign.
      destruct (String.eqb_spec k "__proto__"); [contradiction|]. simpl.
      rewrite map_size_insert_None by exact Hnew. lia.
    + intros q n f Hq Eq. apply elem_of_cons in Hq as [-> | Hq].
      * rewrite Ep in Eq. injection Eq as <- <-.
        rewrite (compileProperties_lookup_other tables camelize ps k (assign k g m) m').
        -- apply assign_lookup_eq, Hkey.
        -- intros q' f' Hq' Eq'. exact (Hother _ _ _ Hq' Eq' eq_refl).
        -- exact E.
      * eapply Hall; eassumption.
Qed.

(** When the properties of a shape derive pairwise distinct field names,
    all of them ordinary keys of the fields object (none is ["__proto__"]),
    the compiled shape has exactly one field per property, each under the
    name its property derives. *)
Theorem distinct_names_keep_every_field (shape : ShapeNode) (config : ObjectConfig) :
  compileShape tables camelize shape = Return config ->
  NoDup (omap (fun q => match compileProperty tables camelize q with
                        | Return nf => Some nf.1
                        | Throw _ => None
                        end) (properties shape)) ->
  (forall q f, q ∈ properties shape ->
               compileProperty tables camelize q <> Return ("__proto__", f)) ->
  size (own_properties (obj_properties config)) = length (properties shape)
  /\ forall q n f, q ∈ properties shape ->
                   compileProperty tables camelize q = Return (n, f) ->
                   own_properties (obj_properties config) !! n = Some f.
Proof.
  unfold compileShape. intros E Hnd Hkeys.
  destruct (compileProperties tables camelize (properties shape) emptyObject) as [m|e] eqn:Em;
    simpl in E; [|discriminate E].
  destruct (shName shape); [discriminate E|]. injection E as <-. simpl.
  destruct (compileProperties_distinct _ _ _ Em Hnd) as [Hsize Hall].
  - intros q n f Hq Eq. split; [|apply lookup_empty].
    intros ->. exact (Hkeys q f Hq Eq).
  - simpl in Hsize. rewrite map_size_empty in Hsize. split; [exact Hsize | exact Hall].
Qed.

(** A property that derives the name ["__proto__"] leaves no field: the
    fields of the compiled shape are then fewer than its properties. *)
Lemma proto_property_leaves_no_field (shape : ShapeNode) (config : ObjectConfig)
    (p : PropertyNode) (f : PropertyInterface) :
  compileShape tables camelize shape = Return config ->
  properties shape = [p] ->
  compileProperty tables camelize p = Return ("__proto__", f) ->
  obj_properties config = {| own_properties := ∅; prototype := Some f |}.
Proof.
  unfold compileShape. intros E Eps Ep. rewrite Eps in E. simpl in E.
  rewrite Ep in E. simpl in E.
  destruct (shName shape); [discriminate E|]. injection E as <-. reflexivity.
Qed.

Section Schema.
Context {GraphQLNamedType GraphQLSchema : Type}.
Variable createObject : ObjectConfig -> result string GraphQLNamedType.
Variable newGraphQLSchema : list GraphQLNamedType -> result string GraphQLSchema.

Lemma compileShapes_Return (shapes : list ShapeNode) (acc types : list GraphQLNamedType) :
  compileShapes tables camelize createObject shapes acc = Return types <->
  exists configs created,
    Forall2 (fun s c => compileShape tables camelize s = Return c) shapes configs
    /\ Forall2 (fun c t => createObject c = Return t) configs created
    /\ types = acc ++ created.
Proof.
  revert acc. induction shapes as [|s shapes IH]; intros acc; simpl.
  - split.
    + intros [= <-]. exists [], []. repeat split; try constructor.
      rewrite app_nil_r. reflexivity.
    + intros (configs & created & Hall & Hcreated & ->).
      inversion Hall; subst. inversion Hcreated; subst.
      rewrite app_nil_r. reflexivity.
  - destruct (compileShape tables camelize s) as [c|e] eqn:Es; simpl.
    + destruct (createObject c) as [t|m] eqn:Ec; simpl.
      * rewrite IH. split.
        -- intros (configs & created & Hall & Hcreated & ->).
           exists (c :: configs), (t :: created).
           repeat split; try (constructor; assumption).
           rewrite <- app_assoc. reflexivity.
        -- intros (configs & created & Hall & Hcreated & ->).
           inversion Hall as [|? c' ? configs' Hc Hrest]; subst.
           assert (c' = c) as -> by congruence.
           inversion Hcreated as [|? t' ? created' Ht Hrest']; subst.
           assert (t' = t) as -> by congruence.
           exists configs', created'. repeat split; try assumption.
           rewrite <- app_assoc. reflexivity.
      * split; [intros E; discriminate E|].
        intros (configs & created & Hall & Hcreated & _).
        inversion Hall as [|? c' ? configs' Hc Hrest]; subst.
        assert (c' = c) as -> by congruence.
        inversion Hcreated; subst. congruence.
    + split; [intros E; discriminate E|].
      intros (configs & created & Hall & _). inversion Hall; subst. congruence.
Qed.

(** [getMeshSource] returns a schema exactly when every shape compiles,
    [createObject] returns a type for each compiled shape and
    [new GraphQLSchema] accepts the types; the types it is given are one per
    shape, in the order of the shapes (none for an empty list of shapes). *)
Theorem getMeshSource_in_order (shapes : list ShapeNode) (schema : GraphQLSchema) :
  getMeshSource tables camelize createObject newGraphQLSchema (Some shapes) = Return schema <->
  exists configs types,
    Forall2 (fun s c => compileShape tables camelize s = Return c) shapes configs
    /\ Forall2 (fun c t => createObject c = Return t) configs types
    /\ newGraphQLSchema types = Return schema.
Proof.
  unfold getMeshSource. split.
  - destruct (compileShapes tables camelize createObject shapes []) as [types|e] eqn:E;
      simpl; [|intros E'; discriminate E'].
    apply compileShapes_Return in E as (configs & created & Hall & Hcreated & ->).
    simpl. destruct (newGraphQLSchema created) as [sch|m] eqn:En; simpl;
      intros E'; [|discriminate E'].
    injection E' as <-. exists configs, created. auto.
  - intros (configs & types & Hall & Hcreated & Hnew).
    assert (E : compileShapes tables camelize createObject shapes [] = Return types).
    { apply compileShapes_Return. exists configs, types. auto. }
    rewrite E. simpl. rewrite Hnew. reflexivity.
Qed.

Lemma compileShapes_first_failure (l1 l2 : list ShapeNode) (s : ShapeNode) (e : Error)
    (acc : list GraphQLNamedType) :
  Forall (fun s' => exists c t, compileShape tables camelize s' = Return c
                                /\ createObject c = Return t) l1 ->
  compileShape tables camelize s = Throw e ->
  compileShapes tables camelize createObject (l1 ++ s :: l2) acc = Throw e.
Proof.
  intros Hl1 Hs. revert acc.
  induction Hl1 as [|s' l1 (c & t & Hc & Ht) _ IH]; intros acc; simpl.
  - rewrite Hs. reflexivity.
  - rewrite Hc. simpl. rewrite Ht. simpl. apply IH.
Qed.

(** One shape that fails makes [getMeshSource] fail with the error of the
    first such shape (the shapes before it being compiled and turned into
    types): no schema of the shapes that do compile is returned, and
    [new GraphQLSchema] is not reached.  Without a list of shapes it fails as
    not implemented. *)
Theorem getMeshSource_all_or_nothing (l1 l2 : list ShapeNode) (s : ShapeNode) (e : Error) :
  Forall (fun s' => exists c t, compileShape tables camelize s' = Return c
                                /\ createObject c = Return t) l1 ->
  compileShape tables camelize s = Throw e ->
  getMeshSource tables camelize createObject newGraphQLSchema (Some (l1 ++ s :: l2)) = Throw e
  /\ getMeshSource tables camelize createObject newGraphQLSchema None
     = Throw NotImplementedShapeDiscovery.
Proof.
  intros Hl1 Hs. split; [|reflexivity].
  unfold getMeshSource.
  rewrite (compileShapes_first_failure l1 l2 s e [] Hl1 Hs). reflexivity.
Qed.

End Schema.

End Shapes.

Lemma compileShape_first_failure_witness :
  compileShape rdfLiteral camelize (shape [] [birthDate; composite; untyped_unnamed])
    = Throw PathShouldBeNamedNode.
Proof.
  apply (compileShape_first_failure rdfLiteral camelize _ [birthDate] [untyped_unnamed]
           composite).
  - reflexivity.
  - constructor; [eexists; reflexivity | constructor].
  - reflexivity.
Defined.

Lemma compileShape_succeeds_witness :
  exists config,
    compileShape rdfLiteral camelize (shape [lit "Person" "string"] [birthDate; badMin_many])
      = Return config.
Proof.
  apply (compileShape_succeeds rdfLiteral camelize). split.
  - repeat constructor; eexists; reflexivity.
  - discriminate.
Defined.

Lemma compiled_fields_provenance_witness :
  exists config,
    compileShape rdfLiteral camelize (shape [lit "Person" "string"] [birthDate; birthDate'])
      = Return config
    /\ (size (own_properties (obj_properties config)) <= 2)%nat.
Proof.
  eexists. split; [reflexivity|].
  apply (compiled_fields_provenance rdfLiteral camelize
           (shape [lit "Person" "string"] [birthDate; birthDate'])).
  reflexivity.
Defined.

Lemma distinct_names_keep_every_field_witness :
  exists config,
    compileShape rdfLiteral camelize (shape [lit "Person" "string"] [birthDate; badMin_many])
      = Return config
    /\ size (own_properties (obj_properties config)) = 2%nat.
Proof.
  eexists. split; [reflexivity|].
  apply (distinct_names_keep_every_field rdfLiteral camelize
           (shape [lit "Person" "string"] [birthDate; badMin_many])).
  - reflexivity.
  - vm_compute. repeat constructor; intros Hin.
    + apply list_elem_of_singleton in Hin. discriminate Hin.
    + apply elem_of_nil in Hin. exact Hin.
  - intros q f Hq. simpl in Hq.
    apply elem_of_cons in Hq as [-> | Hq]; [discriminate|].
    apply list_elem_of_singleton in Hq as ->. discriminate.
Defined.

Lemma getMeshSource_in_order_witness :
  getMeshSource rdfLiteral camelize (fun c => Return (obj_name c)) (fun ts => Return ts)
    (Some [shape [lit "Person" "string"] [birthDate]; shape [lit "Pet" "string"] []])
  = Return ["Person"; "Pet"].
Proof.
  apply (getMeshSource_in_order rdfLiteral camelize
           (fun c => Return (obj_name c)) (fun ts => Return ts)).
  eexists. exists ["Person"; "Pet"]. split; [|split].
  - constructor; [reflexivity|]. constructor; [reflexivity|]. constructor.
  - constructor; [reflexivity|]. constructor; [reflexivity|]. constructor.
  - reflexivity.
Defined.

Lemma getMeshSource_all_or_nothing_witness :
  getMeshSource rdfLiteral camelize (fun c => Return (obj_name c))
    (fun ts : list string => Return ts)
    (Some [shape [lit "Person" "string"] [birthDate]; shape [] []; shape [lit "Pet" "string"] []])
  = Throw UndefinedValueRead.
Proof.
  apply (getMeshSource_all_or_nothing rdfLiteral camelize
           (fun c => Return (obj_name c)) (fun ts : list string => Return ts)
           [shape [lit "Person" "string"] [birthDate]] [shape [lit "Pet" "string"] []]
           (shape [] [])).
  - constructor; [eexists; eexists; split; reflexivity | constructor].
  - reflexivity.
Defined.

End ShaclMore.

(** * More on the scalar codecs *)

Module ScalarsMore.
Import Scalars Sample ScalarsProps.

Lemma typeof_string (v : JsValue) : typeof v = "string" <-> exists s, v = JString s.
Proof.
  split; [|intros [s ->]; reflexivity].
  destruct v; simpl; intros E; try discriminate E. eauto.
Qed.

Section Codecs.

Variable h : TypeHandler.
Variable URL_parse : string -> option string.
Variable scalarName : string.

(** A decode that returns, returns a value of the native type of its
    codec, whatever the handler hands back: a string for [string] and [ID],
    a [Date] for [date], a [URL] for [url]. *)
Theorem decode_result_types (term : Term) (r : JsValue) :
  (string_serialize h term = Return r -> exists s, r = JString s)
  /\ (date_serialize h term = Return r -> exists time, r = JDate time)
  /\ (url_serialize URL_parse term = Return r ->
      exists href, r = JURL href /\ URL_parse (value term) = Some href)
  /\ (ID_serialize scalarName term = Return r ->
      r = JString (value term) /\ termType term = TNamedNode).
Proof.
  split; [|split; [|split]].
  - destruct term; simpl; try (intros E; discriminate E).
    literal_checks; try (intros E; discriminate E).
    destruct (fromRdf h _ false) as [r'|m]; simpl; [|intros E; discriminate E].
    destruct (String.eqb_spec (typeof r') "string") as [Ht|]; simpl;
      [|intros E; discriminate E].
    intros [= <-]. apply typeof_string, Ht.
  - destruct term; simpl; try (intros E; discriminate E).
    literal_checks; try (intros E; discriminate E).
    destruct (fromRdf h _ true) as [r'|m]; simpl; [|intros E; discriminate E].
    destruct r'; simpl; intros E; try discriminate E. injection E as <-. eauto.
  - destruct term; simpl; try (intros E; discriminate E).
    literal_checks; try (intros E; discriminate E).
    destruct (URL_parse _) as [href|] eqn:Eu; intros E; [|discriminate E].
    injection E as <-. exists href. split; [reflexivity | first [exact Eu | reflexivity]].
  - unfold ID_serialize. case_bool_decide; simpl; [|intros E; discriminate E].
    intros [= <-]. auto.
Qed.

(** The [int] and [float] decodes never return a number; with a handler
    that turns literals into numbers only, as the numeric handlers do, they
    never return at all. *)
Theorem numeric_decode_never_number (term : Term) :
  (forall r, int_serialize h term = Return r -> typeof r <> "number")
  /\ (forall r, float_serialize h term = Return r -> typeof r <> "number")
  /\ ((forall t r, fromRdf h t true = Return r -> typeof r = "number") ->
      (exists e, int_serialize h term = Throw e)
      /\ (exists e, float_serialize h term = Throw e)).
Proof.
  split; [|split].
  - intros r. apply int_serialize_not_number.
  - intros r. apply float_serialize_not_number.
  - intros Hnum. split.
    + destruct (int_serialize h term) as [r|e] eqn:E; [|eauto].
      exfalso. apply (int_serialize_not_number h _ _ E).
      destruct term; simpl in E; try discriminate E.
      revert E. literal_checks; try (intros E; discriminate E).
      destruct (fromRdf h _ true) as [r'|m] eqn:Ef; simpl; [|intros E; discriminate E].
      rewrite (Hnum _ _ Ef). simpl. intros E; discriminate E.
    + destruct (float_serialize h term) as [r|e] eqn:E; [|eauto].
      exfalso. apply (float_serialize_not_number h _ _ E).
      destruct term; simpl in E; try discriminate E.
      revert E. literal_checks; try (intros E; discriminate E).
      destruct (fromRdf h _ true) as [r'|m] eqn:Ef; simpl; [|intros E; discriminate E].
      rewrite (Hnum _ _ Ef). simpl. intros E; discriminate E.
Qed.

(** The [ID] codec is a bijection between strings and named nodes: encode
    then decode gives the string back, and decode then encode gives the
    term back. *)
Theorem ID_roundtrips :
  (forall s, roundtrip ID_parseValue (ID_serialize scalarName) (JString s)
             = Return (JString s))
  /\ (forall term v, ID_serialize scalarName term = Return v ->
                     ID_parseValue v = Return term).
Proof.
  split; [reflexivity|].
  intros term v. unfold ID_serialize.
  case_bool_decide as Hk; simpl; [|intros E; discriminate E].
  intros [= <-]. destruct term; try discriminate Hk. reflexivity.
Qed.

(** The [url] codec: a [URL] whose serialisation parses to itself survives
    encode then decode; and a literal that decodes is re-encoded as the
    literal of the parsed serialisation, typed [anyURI]. *)
Theorem url_roundtrips :
  (forall href, URL_parse href = Some href ->
     roundtrip url_parseValue (url_serialize URL_parse) (JURL href) = Return (JURL href))
  /\ (forall term r, url_serialize URL_parse term = Return r ->
       exists href, URL_parse (value term) = Some href
                    /\ url_parseValue r = Return (Literal href (NamedNode anyURI))).
Proof.
  split; [apply url_roundtrip|].
  intros term r E.
  destruct term; simpl in E; try discriminate E.
  revert E. literal_checks; try (intros E; discriminate E).
  destruct (URL_parse _) as [href|] eqn:Eu; intros E; [|discriminate E].
  injection E as <-. exists href. split; [first [exact Eu | reflexivity] | reflexivity].
Qed.

(** The encoders of [string], [date], [url] and [ID] reject every value
    that is not of their native type, before any handler is called. *)
Theorem encode_rejects_other_types (v : JsValue) :
  (typeof v <> "string" ->
     string_parseValue h v = Throw (ExpectedString v)
     /\ ID_parseValue v = Throw (ExpectedString v))
  /\ (instanceof_Date v = false -> date_parseValue h v = Throw (ExpectedString v))
  /\ (instanceof_URL v = false -> url_parseValue v = Throw (ExpectedURL v)).
Proof.
  split; [|split].
  - intros Ht. split.
    + unfold string_parseValue.
      destruct (String.eqb_spec (typeof v) "string"); [contradiction | reflexivity].
    + destruct v; try reflexivity. contradiction Ht. reflexivity.
  - intros Hd. unfold date_parseValue. rewrite Hd. reflexivity.
  - intros Hu. destruct v; try reflexivity. discriminate Hu.
Qed.

(** An identifier is never taken for a literal, nor a literal for an
    identifier: a term that [ID] decodes is rejected as [ShapeMismatch] by
    the five literal codecs, and a term one of them decodes is rejected by
    [ID]. *)
Theorem identifier_and_literal_codecs_disjoint (term : Term) :
  ((exists v, ID_serialize scalarName term = Return v) ->
     string_serialize h term = Throw (ExpectedLiteralTerm term)
     /\ date_serialize h term = Throw (ExpectedLiteralTerm term)
     /\ int_serialize h term = Throw (ExpectedLiteralTerm term)
     /\ float_serialize h term = Throw (ExpectedLiteralTerm term)
     /\ url_serialize URL_parse term = Throw (ExpectedLiteralTerm term))
  /\ ((exists v, string_serialize h term = Return v \/ date_serialize h term = Return v
                 \/ int_serialize h term = Return v \/ float_serialize h term = Return v
                 \/ url_serialize URL_parse term = Return v) ->
      ID_serialize scalarName term = Throw (ExpectedNamedNode scalarName)).
Proof.
  split.
  - intros [v E]. unfold ID_serialize in E.
    case_bool_decide as Hk; simpl in E; [|discriminate E].
    destruct term; try discriminate Hk. repeat split.
  - intros [v E]. destruct term; try reflexivity;
      simpl in E; destruct E as [E | [E | [E | [E | E]]]]; discriminate E.
Qed.

End Codecs.

Lemma numeric_decode_never_number_witness :
  (exists e, int_serialize intHandler (lit "5" "integer") = Throw e)
  /\ (exists e, float_serialize intHandler (lit "5" "integer") = Throw e).
Proof.
  apply (numeric_decode_never_number intHandler (lit "5" "integer")).
  intros t r. simpl. destruct (parseInt (value t)); intros [= <-]; reflexivity.
Defined.

Lemma decode_result_types_witness :
  string_serialize stringHandler (lit "Ada" "string") = Return (JString "Ada")
  /\ exists s, JString "Ada" = JString s.
Proof.
  split; [reflexivity|].
  apply (decode_result_types stringHandler URL_parse "ID" (lit "Ada" "string")).
  reflexivity.
Defined.

Lemma ID_roundtrips_witness :
  ID_serialize "ID" (ex "me") = Return (JString "http://example.org/me")
  /\ ID_parseValue (JString "http://example.org/me") = Return (ex "me").
Proof.
  split; [reflexivity|].
  apply (ID_roundtrips "ID"). reflexivity.
Defined.

Lemma url_roundtrips_witness :
  roundtrip url_parseValue (url_serialize URL_parse) (JURL "https://example.org/")
    = Return (JURL "https://example.org/").
Proof.
  apply (url_roundtrips URL_parse). reflexivity.
Defined.

Lemma encode_rejects_other_types_witness :
  string_parseValue stringHandler (JNumber (Int 5)) = Throw (ExpectedString (JNumber (Int 5)))
  /\ ID_parseValue (JNumber (Int 5)) = Throw (ExpectedString (JNumber (Int 5))).
Proof.
  apply (encode_rejects_other_types stringHandler (JNumber (Int 5))). discriminate.
Defined.

Lemma identifier_and_literal_codecs_disjoint_witness :
  string_serialize stringHandler (ex "me") = Throw (ExpectedLiteralTerm (ex "me"))
  /\ date_serialize stringHandler (ex "me") = Throw (ExpectedLiteralTerm (ex "me"))
  /\ int_serialize stringHandler (ex "me") = Throw (ExpectedLiteralTerm (ex "me"))
  /\ float_serialize stringHandler (ex "me") = Throw (ExpectedLiteralTerm (ex "me"))
  /\ url_serialize URL_parse (ex "me") = Throw (ExpectedLiteralTerm (ex "me")).
Proof.
  apply (identifier_and_literal_codecs_disjoint stringHandler URL_parse "ID" (ex "me")).
  eexists. reflexivity.
Defined.

End ScalarsMore.

(** * More on the identifier helper *)

Module DirectiveMore.
Import Directive DirectiveProps.

(** The helper returns only for a single entry with a text value whose key
    is [in mapping], and it returns an RDF term only for the key ["iri"]:
    the named node of the value. *)
Theorem nodeFromDirective_Return (directive : option (list (string * JsValue)))
    (directiveName : string) (r : JsValue) :
  nodeFromDirective directive directiveName = Return r ->
  exists key v,
    directive = Some [(key, JString v)]
    /\ key ∈ mapping_keys ++ ObjectPrototype_keys
    /\ (forall t, r = JTerm t -> key = "iri" /\ t = NamedNode v).
Proof.
  intros E. unfold nodeFromDirective in E.
  destruct directive as [entries|]; [|discriminate E].
  destruct entries as [|[key v] [|]]; try discriminate E.
  destruct v as [| | | |v| | | | |]; try discriminate E.
  destruct (key_in_mapping key) eqn:Ein; [|discriminate E].
  exists key, v. split; [reflexivity|]. split.
  - unfold key_in_mapping in Ein.
    apply orb_true_iff in Ein as [Ein | Ein];
      apply bool_decide_eq_true in Ein; apply elem_of_app; auto.
  - intros t ->. unfold call_mapping in E.
    repeat match type of E with
    | context [String.eqb ?a ?b] => destruct (String.eqb_spec a b); simpl in E
    end; try discriminate E; injection E as <-; auto.
Qed.

Lemma nodeFromDirective_Return_witness :
  exists key v,
    Some [("iri", JString "http://example.org/me")] = Some [(key, JString v)]
    /\ key ∈ mapping_keys ++ ObjectPrototype_keys
    /\ (forall t, JTerm (NamedNode "http://example.org/me") = JTerm t ->
                  key = "iri" /\ t = NamedNode v).
Proof.
  apply (nodeFromDirective_Return _ "identifier"). reflexivity.
Defined.

(** The helper checks the number of entries, then the type of the value,
    then the key: no directive or a number of entries other than one is
    reported with that number; a value that is not text is reported with its
    [typeof], whatever the key is; and a key that is neither ["iri"] nor a
    property name of [Object.prototype] is reported next to the one
    supported key. *)
Theorem nodeFromDirective_failures (directiveName : string) :
  nodeFromDirective None directiveName
    = Throw (RequiresExactlyOneArgument directiveName 0)
  /\ (forall entries, length entries <> 1%nat ->
       nodeFromDirective (Some entries) directiveName
         = Throw (RequiresExactlyOneArgument directiveName (length entries)))
  /\ (forall key v, typeof v <> "string" ->
       nodeFromDirective (Some [(key, v)]) directiveName
         = Throw (AcceptsOnlyStringValues directiveName (typeof v)))
  /\ (forall key v, key ∉ mapping_keys ++ ObjectPrototype_keys ->
       nodeFromDirective (Some [(key, JString v)]) directiveName
         = Throw (ExpectedKeyToBeOneOf "iri" key)).
Proof.
  split; [reflexivity|]. split; [|split].
  - intros entries Hlen. simpl.
    destruct entries as [|[key v] [|]]; try reflexivity.
    contradiction Hlen. reflexivity.
  - intros key v Hv. destruct v; try reflexivity. contradiction Hv. reflexivity.
  - intros key v Hk. apply nodeFromDirective_unknown_key, Hk.
Qed.

Lemma nodeFromDirective_failures_witness :
  nodeFromDirective (Some [("a", JString "1"); ("b", JString "2")]) "identifier"
    = Throw (RequiresExactlyOneArgument "identifier" 2)
  /\ nodeFromDirective (Some [("foo", JNumber (Int 1))]) "identifier"
     = Throw (AcceptsOnlyStringValues "identifier" "number")
  /\ nodeFromDirective (Some [("foo", JString "x")]) "identifier"
     = Throw (ExpectedKeyToBeOneOf "iri" "foo").
Proof.
  destruct (nodeFromDirective_failures "identifier") as (_ & Harity & Hvalue & Hkey).
  split; [apply (Harity [("a", JString "1"); ("b", JString "2")]); discriminate|].
  split; [apply (Hvalue "foo" (JNumber (Int 1))); discriminate|].
  apply Hkey. intros Hin. apply (bool_decide_pack _) in Hin. vm_compute in Hin. exact Hin.
Defined.

End DirectiveMore.
